(** * Connect: the Desk form and list scripts of the Kafka bridge

    A shallow embedding of the three client scripts under
    [connect/public/js]:

    - [connect_settings.js]       (Test Connection, Refresh Schemas, the
                                   status banner, the 24h statistics),
    - [connect_message_log.js]    (status indicator, Retry Production, and
                                   the list-view settings),
    - [connect_emission_rule.js]  (Manual Push).

    The scripts are glue between server responses and the Desk UI, so the
    embedding has three layers: the fragment of JavaScript value semantics
    the scripts rely on ([Js]), the calls into the Frappe client framework
    recorded as a trace of actions ([Frappe]), and one module per script whose
    definitions follow the source function by function. *)

From Stdlib Require Import Ascii.
From stdpp Require Import gmap strings list fin_maps pretty.

#[local] Set Warnings "-register-all".
#[local] Open Scope string_scope.

(* ===================================================================== *)
(** * JavaScript values and the operators the scripts use *)
(* ===================================================================== *)

Module Js.

(** Values that reach the scripts: what [JSON.parse] can produce, plus
    [undefined], [NaN] (the sum of a number and [undefined]) and the
    built-in members every object inherits from [Object.prototype].

    [JNum n] is a number with the integer value [n], [|n| <= 2^53]: the range
    in which IEEE doubles represent every integer, so that sums in that range
    are the sums of [Z]. Operations that would leave the range answer
    [Unmodelled] instead of rounding. *)
Inductive JsVal : Type :=
| JUndefined
| JNull
| JBool (b : bool)
| JNum (n : Z)
| JNaN
| JStr (s : string)
| JArr (items : list JsVal)
| JObj (props : gmap string JsVal)
| JNative (name : string).

(** How the evaluation of an expression completes: with a value, with a
    thrown [TypeError], or outside the fragment modelled here. *)
Inductive Outcome (A : Type) : Type :=
| Ok (a : A)
| TypeError
| Unmodelled.
Arguments Ok {A} a.
Arguments TypeError {A}.
Arguments Unmodelled {A}.

#[global] Instance Outcome_ret : MRet Outcome := λ A a, Ok a.
#[global] Instance Outcome_bind : MBind Outcome := λ A B f m,
  match m with
  | Ok a => f a
  | TypeError => TypeError
  | Unmodelled => Unmodelled
  end.

Definition safe_integer : Z := 2 ^ 53.

Definition is_safe (n : Z) : bool :=
  bool_decide (- safe_integer ≤ n ≤ safe_integer)%Z.

(** ToBoolean. *)
Definition truthy (v : JsVal) : bool :=
  match v with
  | JUndefined | JNull | JNaN => false
  | JBool b => b
  | JNum n => negb (n =? 0)%Z
  | JStr s => negb (String.eqb s "")
  | JArr _ | JObj _ | JNative _ => true
  end.

(** [v === "lit"]: strict equality against a string literal, the only form
    of [===] and [!==] in the scripts. *)
Definition str_eq (v : JsVal) (lit : string) : bool :=
  match v with
  | JStr s => String.eqb s lit
  | _ => false
  end.

(** [a || b] on already evaluated operands. *)
Definition js_or (a b : JsVal) : JsVal := if truthy a then a else b.

(** The own property names of [Object.prototype]; every one of them holds a
    function, except [__proto__], an accessor that yields the prototype
    object. All of them are truthy. *)
Definition object_prototype : list string :=
  [ "constructor"; "__defineGetter__"; "__defineSetter__"; "hasOwnProperty";
    "__lookupGetter__"; "__lookupSetter__"; "isPrototypeOf";
    "propertyIsEnumerable"; "toString"; "valueOf"; "__proto__";
    "toLocaleString" ].

Definition inherited (k : string) : JsVal :=
  if bool_decide (k ∈ object_prototype)
  then JNative ("Object.prototype." ++ k)
  else JUndefined.

(** [o[k]] on a plain object (an object literal or a parsed JSON object):
    the own property, else what the prototype chain gives. *)
Definition obj_get (o : gmap string JsVal) (k : string) : JsVal :=
  match o !! k with
  | Some v => v
  | None => inherited k
  end.

(** The length of a string in UTF-16 code units, computed from its UTF-8
    bytes: continuation bytes count zero, the lead byte of a four-byte
    sequence counts two. *)
Fixpoint utf16_length (s : string) : nat :=
  match s with
  | EmptyString => 0
  | String c rest =>
      let b := Ascii.nat_of_ascii c in
      ((if b <? 128 then 1
        else if b <? 192 then 0
        else if b <? 240 then 1
        else 2) + utf16_length rest)%nat
  end.

(** The property names the scripts read with a dot. None of them is a
    member of [Array.prototype], [String.prototype], [Number.prototype] or
    [Boolean.prototype], so on arrays and primitives they are [undefined]. *)
Definition plain_names : list string :=
  [ "message"; "ok"; "data"; "kafka"; "schema_registry"; "status"; "detail";
    "stats"; "idempotency_key"; "direction"; "count"; "doctype"; "docname" ].

(** [v.k]. Reading a property of [undefined] or [null] throws. An array or
    a string has a [length]; a boolean or a number has none. Other members
    of the prototypes of arrays and primitives, and the members of built-in
    functions, are outside the model. *)
Definition prop (v : JsVal) (k : string) : Outcome JsVal :=
  match v with
  | JUndefined | JNull => TypeError
  | JObj o => Ok (obj_get o k)
  | JArr items =>
      if String.eqb k "length" then Ok (JNum (Z.of_nat (length items)))
      else if bool_decide (k ∈ plain_names) then Ok JUndefined
      else Unmodelled
  | JStr s =>
      if String.eqb k "length" then Ok (JNum (Z.of_nat (utf16_length s)))
      else if bool_decide (k ∈ plain_names) then Ok JUndefined
      else Unmodelled
  | JBool _ | JNum _ | JNaN =>
      if String.eqb k "length" || bool_decide (k ∈ plain_names)
      then Ok JUndefined
      else Unmodelled
  | JNative _ => Unmodelled
  end.

(** [a && b()] : the right operand is evaluated only if the left is truthy. *)
Definition js_and (a : JsVal) (b : Outcome JsVal) : Outcome JsVal :=
  if truthy a then b else Ok a.

Definition join_with (sep : string) (parts : list string) : string :=
  match parts with
  | [] => ""
  | p :: ps => fold_left (λ acc x, acc ++ sep ++ x) ps p
  end.

(** ToString, as used by template literals and by [o[k]] for the key.
    A plain object prints as [[object Object]] unless it has an own
    [toString] property, which in a parsed JSON object is never callable:
    the conversion then falls to the inherited [valueOf], which returns the
    object itself, and throws. Array elements [undefined] and [null] print
    as the empty string. *)
Fixpoint to_string (v : JsVal) : Outcome string :=
  match v with
  | JUndefined => Ok "undefined"
  | JNull => Ok "null"
  | JBool true => Ok "true"
  | JBool false => Ok "false"
  | JNum n => if is_safe n then Ok (pretty n) else Unmodelled
  | JNaN => Ok "NaN"
  | JStr s => Ok s
  | JArr items =>
      parts ← (fix each (l : list JsVal) : Outcome (list string) :=
                 match l with
                 | [] => Ok []
                 | x :: rest =>
                     p ← match x with
                         | JUndefined | JNull => Ok ""
                         | _ => to_string x
                         end;
                     ps ← each rest;
                     Ok (p :: ps)
                 end) items;
      Ok (join_with "," parts)
  | JObj o =>
      match o !! "toString" with
      | Some _ => TypeError
      | None => Ok "[object Object]"
      end
  | JNative _ => Unmodelled
  end.

(** ToNumber on the operands of [+] when neither is a string or an object. *)
Inductive Number : Type := Num (n : Z) | NaN.

Definition to_number (v : JsVal) : Outcome Number :=
  match v with
  | JUndefined | JNaN => Ok NaN
  | JNull | JBool false => Ok (Num 0)
  | JBool true => Ok (Num 1)
  | JNum n => Ok (Num n)
  | JStr _ | JArr _ | JObj _ | JNative _ => Unmodelled
  end.

(** [a + b] on numbers, booleans, [null] and [undefined]. With a string,
    array or object operand [+] concatenates; the scripts only add counts,
    and concatenation is left outside the model, as is a sum outside the
    range of exactly represented integers. *)
Definition js_add (a b : JsVal) : Outcome JsVal :=
  x ← to_number a;
  y ← to_number b;
  match x, y with
  | Num m, Num n => if is_safe (m + n) then Ok (JNum (m + n)) else Unmodelled
  | _, _ => Ok JNaN
  end.

(** [v > 0]. *)
Definition js_gt0 (v : JsVal) : Outcome bool :=
  x ← to_number v;
  match x with
  | Num n => Ok (0 <? n)%Z
  | NaN => Ok false
  end.

End Js.
Export Js.

(* ===================================================================== *)
(** * The Frappe client framework, as the scripts see it *)
(* ===================================================================== *)

Module Frappe.

(** A field of a [frappe.ui.Dialog]. *)
Record DialogField : Type := {
  df_label : JsVal;
  df_fieldname : string;
  df_fieldtype : string;
  df_options : string;
  df_default : JsVal;
  df_read_only : bool;
  df_reqd : bool;
  df_description : option JsVal;
}.

(** The calls a script makes into the framework. Closures passed to the
    framework (click handlers, callbacks) are kept as functions: running one
    yields the calls it makes in turn and how it completes. An option of
    [frappe.call] that a script leaves out is [[]] for [args], [false] for
    [freeze] and [None] for the others. *)
Inductive Action : Type :=
| add_custom_button (label : JsVal)
    (click : unit → list Action * Outcome unit) (group : option JsVal)
| show_alert (message : JsVal) (indicator : string)
| msgprint (title message : JsVal) (indicator : string)
| confirm (message : JsVal) (on_yes : unit → list Action * Outcome unit)
| call (method : string) (args : list (string * JsVal))
    (freeze : bool) (freeze_message : option JsVal) (async : option bool)
    (callback : JsVal → list Action * Outcome unit)
    (error : option (unit → list Action * Outcome unit))
| set_indicator (label color : JsVal)
| add_indicator (label : JsVal) (color : string)
| add_comment (text : JsVal) (color : string) (permanent : bool)
| reload_doc
| dialog_show (title : JsVal) (fields : list DialogField)
    (primary_action_label : JsVal)
    (primary_action : JsVal → list Action * Outcome unit)
| dialog_hide
| banner_remove
| banner_prepend (html : string)
| banner_html (html : string).

(** A script function: the framework calls it makes, in order, and its
    completion. A thrown error keeps the calls made before it. *)
Definition UI (A : Type) : Type := list Action * Outcome A.

#[global] Instance UI_ret : MRet UI := λ A a, ([], Ok a).
#[global] Instance UI_bind : MBind UI := λ A B f m,
  match m with
  | (done, Ok a) => let '(more, o) := f a in (app done more, o)
  | (done, TypeError) => (done, TypeError)
  | (done, Unmodelled) => (done, Unmodelled)
  end.

Definition emit (a : Action) : UI unit := ([a], Ok tt).
Definition eval {A} (o : Outcome A) : UI A := ([], o).

Definition actions {A} (m : UI A) : list Action := m.1.

(** [__(txt, replace)] : the framework's translation function. Its message
    catalogue belongs to the site, so it is a parameter of every script. *)
Definition Translation : Type := JsVal → option (list JsVal) → JsVal.

(** The form a script is attached to: the document [frm.doc], whether the
    form has an [enabled] control ([frm.fields_dict.enabled]), and how many
    elements of class [connect-status-banner] stand under [frm.wrapper]. *)
Record Form : Type := {
  doc : gmap string JsVal;
  fields_dict_enabled : bool;
  banners : nat;
}.

(** [frm.doc.k] *)
Definition field (frm : Form) (k : string) : JsVal := obj_get (doc frm) k.

(** Markup is written with ['] where the source has a double quote;
    [q] puts the double quotes back. No markup of the scripts holds an
    apostrophe. *)
Fixpoint q (s : string) : string :=
  match s with
  | EmptyString => EmptyString
  | String c rest =>
      String (if Ascii.eqb c "'" then "034"%char else c) (q rest)
  end.

(** [a.k1.k2...] *)
Fixpoint path (v : JsVal) (ks : list string) : Outcome JsVal :=
  match ks with
  | [] => Ok v
  | k :: rest => w ← prop v k; path w rest
  end.

(** Modelled framework behaviour: the values a [frappe.ui.Dialog] hands to
    its primary action. A read-only field keeps its default; the operator
    fills the others. *)
Definition dialog_values (fields : list DialogField)
    (typed : gmap string JsVal) : gmap string JsVal :=
  list_to_map
    (map (λ f, (df_fieldname f,
                if df_read_only f then df_default f
                else default JUndefined (typed !! df_fieldname f)))
         fields).

(** Two expressions every callback of the scripts repeats. *)

(** [r.message && r.message.ok] *)
Definition message_ok (r : JsVal) : Outcome JsVal :=
  message ← prop r "message";
  js_and message (path r ["message"; "ok"]).

(** [r.message ? r.message.message : fallback] *)
Definition message_or (r : JsVal) (fallback : JsVal) : Outcome JsVal :=
  message ← prop r "message";
  if truthy message then path r ["message"; "message"] else Ok fallback.

End Frappe.
Export Frappe.

(* ===================================================================== *)
(** * connect_settings.js *)
(* ===================================================================== *)

Module ConnectSettings.
Section Script.
Context (__ : Translation).

Definition _build_health_row (label : string) (is_ok detail : JsVal)
  : Outcome string :=
  let icon := if truthy is_ok then "✓" else "✗" in
  let color := if truthy is_ok then "#28B463" else "#E74C3C" in
  detail ← to_string detail;
  Ok (q "
		<div style='display: flex; align-items: center; padding: 8px 0; border-bottom: 1px solid var(--border-color);'>
			<span style='color: " ++ color ++ q "; font-size: 18px; width: 24px; text-align: center;'>" ++ icon ++ q "</span>
			<strong style='margin-left: 8px; min-width: 140px;'>" ++ label ++ q "</strong>
			<span class='text-muted' style='margin-left: 12px;'>" ++ detail ++ q "</span>
		</div>
	").

(** [data.sub && data.sub.status === "ok"] *)
Definition subsystem_ok (data : JsVal) (sub : string) : Outcome JsVal :=
  s ← prop data sub;
  js_and s (status ← path data [sub; "status"]; Ok (JBool (str_eq status "ok"))).

(** [ok ? data.sub.detail : data.sub.detail || "Connection failed"] *)
Definition subsystem_detail (data : JsVal) (sub : string) (ok : JsVal)
  : Outcome JsVal :=
  detail ← path data [sub; "detail"];
  Ok (if truthy ok then detail else js_or detail (JStr "Connection failed")).

(** The [callback] of the Test Connection call. *)
Definition test_connection_callback (r : JsVal) : UI unit :=
  ok ← eval (message_ok r);
  if truthy ok then
    data ← eval (path r ["message"; "data"]);
    kafka_ok ← eval (subsystem_ok data "kafka");
    sr_ok ← eval (subsystem_ok data "schema_registry");
    let html := q "<div class='connect-health-result'>" in
    kafka_detail ← eval (subsystem_detail data "kafka" kafka_ok);
    kafka_row ← eval (_build_health_row "Kafka Brokers" kafka_ok kafka_detail);
    let html := html ++ kafka_row in
    sr_detail ← eval (subsystem_detail data "schema_registry" sr_ok);
    sr_row ← eval (_build_health_row "Schema Registry" sr_ok sr_detail);
    let html := html ++ sr_row in
    let html := html ++ "</div>" in
    let all_ok := truthy kafka_ok && truthy sr_ok in
    emit (msgprint
            (if all_ok then __ (JStr "All Connected") None
             else __ (JStr "Connection Issues") None)
            (JStr html)
            (if all_ok then "green" else "red"))
  else
    message ← eval (message_or r (__ (JStr "Unexpected error") None));
    emit (msgprint (__ (JStr "Connection Test Failed") None) message "red").

(** The [error] handler of the Test Connection call. *)
Definition test_connection_error (_ : unit) : UI unit :=
  emit (msgprint (__ (JStr "Error") None)
          (__ (JStr "Failed to reach the server. Check your network.") None)
          "red").

(** The click handler of the Test Connection button. *)
Definition test_connection_click (_ : unit) : UI unit :=
  emit (show_alert (__ (JStr "Testing connection...") None) "blue");;
  emit (call "connect.api.test_connection" [] true
          (Some (__ (JStr "Checking Kafka & Schema Registry...") None)) None
          test_connection_callback (Some test_connection_error)).

Definition _add_test_connection_button (frm : Form) : UI unit :=
  emit (add_custom_button (__ (JStr "Test Connection") None)
          test_connection_click (Some (__ (JStr "Actions") None))).

(** The [callback] of the Refresh Schemas call. *)
Definition refresh_schemas_callback (r : JsVal) : UI unit :=
  ok ← eval (message_ok r);
  if truthy ok then
    emit (show_alert (__ (JStr "Schema cache refreshed successfully") None)
            "green")
  else
    message ← eval (message_or r (__ (JStr "Unknown error") None));
    emit (msgprint (__ (JStr "Schema Refresh Failed") None) message "red").

Definition refresh_schemas_click (_ : unit) : UI unit :=
  emit (call "connect.api.refresh_schemas" [] true
          (Some (__ (JStr "Refreshing Avro schemas from registry...") None))
          None refresh_schemas_callback None).

Definition _add_refresh_schemas_button (frm : Form) : UI unit :=
  emit (add_custom_button (__ (JStr "Refresh Schemas") None)
          refresh_schemas_click (Some (__ (JStr "Actions") None))).

(** The two template literals of the status banner: the one for a reply
    that is ok, and the one for a reply that is not. *)
Definition banner_checked (all_ok kafka_ok sr_ok : bool) (title : string)
  : string :=
  q "<div class='alert alert-" ++ (if all_ok then "success" else "warning") ++ q " p-2 mb-0' style='font-size: 0.85rem;'>
						<span class='indicator-pill " ++ (if all_ok then "green" else "orange") ++ q "'></span>
						<strong>" ++ title ++ q "</strong>
						<span class='text-muted ml-2'>
							Kafka: " ++ (if kafka_ok then "✓" else "✗") ++ " &nbsp;|&nbsp; Schema Registry: " ++ (if sr_ok then "✓" else "✗") ++ q "
						</span>
					</div>".

Definition banner_disconnected (title reason : string) : string :=
  q "<div class='alert alert-danger p-2 mb-0' style='font-size: 0.85rem;'>
						<span class='indicator-pill red'></span>
						<strong>" ++ title ++ q "</strong>
						<span class='text-muted ml-2'>" ++ reason ++ q "</span>
					</div>".

(** The [callback] of the status banner's call. *)
Definition connection_status_callback (r : JsVal) : UI unit :=
  ok ← eval (message_ok r);
  if truthy ok then
    data ← eval (path r ["message"; "data"]);
    kafka_ok ← eval (subsystem_ok data "kafka");
    sr_ok ← eval (subsystem_ok data "schema_registry");
    let all_ok := truthy kafka_ok && truthy sr_ok in
    title ← eval (to_string (if all_ok then __ (JStr "Connected") None
                             else __ (JStr "Connection Issues") None));
    emit (banner_html
            (banner_checked all_ok (truthy kafka_ok) (truthy sr_ok) title))
  else
    title ← eval (to_string (__ (JStr "Disconnected") None));
    reason ← eval (m ← message_or r (JStr "Check configuration"); to_string m);
    emit (banner_html (banner_disconnected title reason)).

Definition connection_status_error (_ : unit) : UI unit :=
  emit (banner_html "").

(** [_update_connection_status(frm, $banner)]. [banner] is the size of the
    jQuery collection passed as [$banner], if one is passed; a jQuery
    collection is truthy whatever its size. *)
Definition _update_connection_status (frm : Form) (banner : option nat)
  : UI unit :=
  let banner_length := default (banners frm) banner in
  if (banner_length =? 0)%nat then mret tt
  else
    emit (banner_html (q "<div class='text-muted small'><i class='fa fa-spinner fa-spin'></i> Checking status...</div>"));;
    emit (call "connect.api.test_connection" [] false None (Some true)
            connection_status_callback (Some connection_status_error)).

Definition _add_connection_status_section (frm : Form) : UI unit :=
  if truthy (field frm "__islocal") then mret tt
  else if negb (fields_dict_enabled frm) then mret tt
  else
    emit banner_remove;;
    emit (banner_prepend (q "<div class='connect-status-banner' style='margin-bottom: 12px;'></div>"));;
    _update_connection_status frm (Some 1%nat).

(** One turn of [stats.forEach]: the three running totals after entry [s]. *)
Definition stats_entry (totals : JsVal * JsVal * JsVal) (s : JsVal)
  : Outcome (JsVal * JsVal * JsVal) :=
  let '(total_produced, total_consumed, total_failed) := totals in
  direction ← prop s "direction";
  total_produced ←
    (if str_eq direction "Produced"
     then count ← prop s "count"; js_add total_produced count
     else Ok total_produced);
  direction ← prop s "direction";
  total_consumed ←
    (if str_eq direction "Consumed"
     then count ← prop s "count"; js_add total_consumed count
     else Ok total_consumed);
  status ← prop s "status";
  failed ← (if str_eq status "Failed" then Ok true
            else status ← prop s "status"; Ok (str_eq status "Dead Letter"));
  total_failed ←
    (if failed : bool
     then count ← prop s "count"; js_add total_failed count
     else Ok total_failed);
  Ok (total_produced, total_consumed, total_failed).

Fixpoint stats_forEach (totals : JsVal * JsVal * JsVal) (stats : list JsVal)
  : Outcome (JsVal * JsVal * JsVal) :=
  match stats with
  | [] => Ok totals
  | s :: rest => totals ← stats_entry totals s; stats_forEach totals rest
  end.

(** The [callback] of the statistics call. *)
Definition stats_callback (r : JsVal) : UI unit :=
  ok ← eval (message_ok r);
  if truthy ok then
    stats ← eval (s ← path r ["message"; "data"; "stats"]; Ok (js_or s (JArr [])));
    len ← eval (prop stats "length");
    if negb (truthy len) then mret tt
    else
      totals ← eval (match stats with
                     | JArr items => stats_forEach (JNum 0, JNum 0, JNum 0) items
                     | _ => TypeError
                     end);
      let '(total_produced, total_consumed, total_failed) := totals in
      produced ← eval (js_gt0 total_produced);
      emit (add_indicator
              (__ (JStr "Produced (24h): {0}") (Some [total_produced]))
              (if produced : bool then "blue" else "grey"));;
      consumed ← eval (js_gt0 total_consumed);
      emit (add_indicator
              (__ (JStr "Consumed (24h): {0}") (Some [total_consumed]))
              (if consumed : bool then "green" else "grey"));;
      failed ← eval (js_gt0 total_failed);
      emit (add_indicator
              (__ (JStr "Failed (24h): {0}") (Some [total_failed]))
              (if failed : bool then "red" else "grey"))
  else mret tt.

Definition _add_stats_section (frm : Form) : UI unit :=
  if truthy (field frm "__islocal") then mret tt
  else
    emit (call "connect.api.get_kafka_stats" [] false None (Some true)
            stats_callback None).

Definition refresh (frm : Form) : UI unit :=
  _add_test_connection_button frm;;
  _add_refresh_schemas_button frm;;
  _add_connection_status_section frm;;
  _add_stats_section frm.

Definition after_save (frm : Form) : UI unit :=
  _update_connection_status frm None.

End Script.
End ConnectSettings.

(* ===================================================================== *)
(** * connect_message_log.js: the form script *)
(* ===================================================================== *)

Module ConnectMessageLog.
Section Script.
Context (__ : Translation).
(** [frappe.router.slug] *)
Context (slug : JsVal → JsVal).

Definition status_colors : gmap string JsVal :=
  list_to_map
    [ ("Pending", JStr "orange");
      ("Sent", JStr "blue");
      ("Delivered", JStr "blue");
      ("Failed", JStr "red");
      ("Processed", JStr "green");
      ("Skipped", JStr "grey");
      ("Dead Letter", JStr "darkgrey") ].

Definition _set_status_indicator (frm : Form) : UI unit :=
  let status := field frm "status" in
  key ← eval (to_string status);
  let color := js_or (obj_get status_colors key) (JStr "grey") in
  emit (set_indicator (__ status None) color).

(** The [callback] of the retry call. *)
Definition retry_callback (r : JsVal) : UI unit :=
  ok ← eval (message_ok r);
  if truthy ok then
    key ← eval (path r ["message"; "data"; "idempotency_key"]);
    emit (show_alert
            (__ (JStr "Message re-produced with key: {0}") (Some [key]))
            "green");;
    emit reload_doc
  else
    message ← eval (message_or r (__ (JStr "Unknown error") None));
    emit (msgprint (__ (JStr "Production Failed") None) message "red").

(** What runs once the operator has confirmed. *)
Definition retry_confirmed (frm : Form) (_ : unit) : UI unit :=
  emit (call "connect.api.manual_produce"
          [ ("doctype", field frm "source_doctype");
            ("docname", field frm "source_docname");
            ("rule_name", field frm "rule_name") ]
          true (Some (__ (JStr "Producing message...") None)) None
          retry_callback None).

(** The click handler of the Retry Production button. *)
Definition retry_click (frm : Form) (_ : unit) : UI unit :=
  emit (confirm
          (__ (JStr "This will re-produce the message for {0} {1} using rule '{2}'. Continue?")
              (Some [ field frm "source_doctype"; field frm "source_docname";
                      field frm "rule_name" ]))
          (retry_confirmed frm)).

Definition _add_retry_button (frm : Form) : UI unit :=
  if negb (str_eq (field frm "status") "Failed")
     || negb (str_eq (field frm "direction") "Produced")
  then mret tt
  else if negb (truthy (field frm "source_doctype"))
          || negb (truthy (field frm "source_docname"))
          || negb (truthy (field frm "rule_name"))
  then mret tt
  else emit (add_custom_button (__ (JStr "Retry Production") None)
               (retry_click frm) None).

Definition _add_source_link (frm : Form) : UI unit :=
  if truthy (field frm "source_doctype") && truthy (field frm "source_docname")
  then
    href ← eval (to_string (slug (field frm "source_doctype")));
    docname ← eval (to_string (field frm "source_docname"));
    doctype ← eval (to_string (field frm "source_doctype"));
    emit (add_comment
            (__ (JStr "Source: {0}")
                (Some [ JStr (q "<a href='/app/" ++ href ++ "/" ++ docname ++ q "'>
					" ++ doctype ++ " " ++ docname ++ "
				</a>") ]))
            "blue" true)
  else mret tt.

Definition refresh (frm : Form) : UI unit :=
  _set_status_indicator frm;;
  _add_retry_button frm;;
  _add_source_link frm.

End Script.
End ConnectMessageLog.

(* ===================================================================== *)
(** * connect_message_log.js: the list view settings *)
(* ===================================================================== *)

(** [get_indicator] and the [direction] formatter. [onload], which adds the
    two quick-filter buttons, only talks to the list view's filter area and
    is left out. *)
Module ConnectMessageLogList.
Section Script.
Context (__ : Translation).

Definition status_map : gmap string JsVal :=
  list_to_map
    [ ("Pending",
        JArr [__ (JStr "Pending") None; JStr "orange"; JStr "status,=,Pending"]);
      ("Sent",
        JArr [__ (JStr "Sent") None; JStr "blue"; JStr "status,=,Sent"]);
      ("Delivered",
        JArr [__ (JStr "Delivered") None; JStr "blue"; JStr "status,=,Delivered"]);
      ("Failed",
        JArr [__ (JStr "Failed") None; JStr "red"; JStr "status,=,Failed"]);
      ("Processed",
        JArr [__ (JStr "Processed") None; JStr "green"; JStr "status,=,Processed"]);
      ("Skipped",
        JArr [__ (JStr "Skipped") None; JStr "grey"; JStr "status,=,Skipped"]);
      ("Dead Letter",
        JArr [__ (JStr "Dead Letter") None; JStr "darkgrey";
              JStr "status,=,Dead Letter"]) ].

Definition get_indicator (doc : gmap string JsVal) : Outcome JsVal :=
  key ← to_string (obj_get doc "status");
  Ok (js_or (obj_get status_map key)
            (JArr [__ (obj_get doc "status") None; JStr "grey"; JStr ""])).

(** [formatters.direction] *)
Definition direction (value : JsVal) : Outcome string :=
  let icon := if str_eq value "Produced" then "↑" else "↓" in
  let color := if str_eq value "Produced" then "#2E86C1" else "#28B463" in
  value ← to_string value;
  Ok (q "<span style='color: " ++ color ++ q "; font-weight: 600;'>" ++ icon ++ " " ++ value ++ "</span>").

End Script.
End ConnectMessageLogList.

(* ===================================================================== *)
(** * connect_emission_rule.js *)
(* ===================================================================== *)

Module ConnectEmissionRule.
Section Script.
Context (__ : Translation).

(** The [callback] of the manual push call. *)
Definition manual_push_callback (r : JsVal) : UI unit :=
  ok ← eval (message_ok r);
  if truthy ok then
    key ← eval (path r ["message"; "data"; "idempotency_key"]);
    emit (show_alert (__ (JStr "Message produced! Key: {0}") (Some [key]))
            "green")
  else
    message ← eval (message_or r (__ (JStr "Unknown error") None));
    emit (msgprint (__ (JStr "Push Failed") None) message "red").

(** The [fields] of the Manual Push dialog. *)
Definition manual_push_fields (frm : Form) : list DialogField :=
  [ {| df_label := __ (JStr "Source DocType") None;
       df_fieldname := "doctype";
       df_fieldtype := "Link";
       df_options := "DocType";
       df_default := field frm "source_doctype";
       df_read_only := true;
       df_reqd := true;
       df_description := None |};
    {| df_label := __ (JStr "Document Name") None;
       df_fieldname := "docname";
       df_fieldtype := "Dynamic Link";
       df_options := "doctype";
       df_default := JUndefined;
       df_read_only := false;
       df_reqd := true;
       df_description :=
         Some (__ (JStr "Select a specific {0} to push through this rule")
                  (Some [field frm "source_doctype"])) |} ].

(** [primary_action(values)] of the dialog. *)
Definition manual_push_primary_action (frm : Form) (values : JsVal)
  : UI unit :=
  emit dialog_hide;;
  doctype ← eval (prop values "doctype");
  docname ← eval (prop values "docname");
  emit (call "connect.api.manual_produce"
          [ ("doctype", doctype);
            ("docname", docname);
            ("rule_name", field frm "name") ]
          true
          (Some (__ (JStr "Producing message for {0} {1}...")
                    (Some [doctype; docname])))
          None manual_push_callback None).

(** The click handler of the Manual Push button: build the dialog, show it. *)
Definition manual_push_click (frm : Form) (_ : unit) : UI unit :=
  emit (dialog_show
          (__ (JStr "Manual Push — {0}") (Some [field frm "rule_name"]))
          (manual_push_fields frm)
          (__ (JStr "Push to Broker") None)
          (manual_push_primary_action frm)).

Definition _add_manual_push_button (frm : Form) : UI unit :=
  emit (add_custom_button (__ (JStr "Manual Push") None)
          (manual_push_click frm) (Some (__ (JStr "Actions") None))).

(** The callbacks of the two [frappe.client.get_count] calls. *)
Definition total_messages_callback (r : JsVal) : UI unit :=
  message ← eval (prop r "message");
  if truthy message then
    positive ← eval (js_gt0 message);
    emit (add_indicator (__ (JStr "Total Messages: {0}") (Some [message]))
            (if positive : bool then "blue" else "grey"))
  else mret tt.

Definition failed_messages_callback (r : JsVal) : UI unit :=
  message ← eval (prop r "message");
  if truthy message then
    positive ← eval (js_gt0 message);
    if positive : bool
    then emit (add_indicator (__ (JStr "Failed: {0}") (Some [message])) "red")
    else mret tt
  else mret tt.

Definition _add_recent_logs_section (frm : Form) : UI unit :=
  if truthy (field frm "__islocal") then mret tt
  else
    emit (call "frappe.client.get_count"
            [ ("doctype", JStr "Connect Message Log");
              ("filters", JObj (list_to_map [("rule_name", field frm "name")])) ]
            false None (Some true) total_messages_callback None);;
    emit (call "frappe.client.get_count"
            [ ("doctype", JStr "Connect Message Log");
              ("filters",
                JObj (list_to_map [ ("rule_name", field frm "name");
                                    ("status", JStr "Failed") ])) ]
            false None (Some true) failed_messages_callback None).

Definition refresh (frm : Form) : UI unit :=
  (if negb (truthy (field frm "__islocal")) && truthy (field frm "enabled")
   then _add_manual_push_button frm
   else mret tt);;
  _add_recent_logs_section frm.

End Script.
End ConnectEmissionRule.

(* ===================================================================== *)
(** * The server side of [connect.api.manual_produce] *)
(* ===================================================================== *)

Module Backend.

(** The Message Log: one document per produced or consumed message, in the
    order the entries were opened. An entry's id is its position. *)
Abbreviation MessageLog := (list (gmap string JsVal)).

(** Modelled from the spec: what the Producer Engine needs from its
    environment, which is not among the sources. [derive_key] is the
    deterministic idempotency-key derivation of 4.4 (rule name, document
    type, document name); [publish] is the encode-and-publish step, which
    either is acknowledged ([None]) or fails with a detail. *)
Record Producer : Type := {
  derive_key : JsVal → JsVal → JsVal → JsVal;
  publish : JsVal → JsVal → JsVal → option JsVal;
}.

(** Modelled from the spec: [open] of 4.3, which is not among the sources.
    Every attempt opens exactly one entry, in status Pending. *)
Definition open (log : MessageLog) (direction : string)
    (key rule_name doctype docname : JsVal) : MessageLog * nat :=
  (app log
     [ list_to_map
         [ ("direction", JStr direction);
           ("status", JStr "Pending");
           ("idempotency_key", key);
           ("rule_name", rule_name);
           ("source_doctype", doctype);
           ("source_docname", docname) ] ],
   length log).

(** Modelled from the spec: [transition] of 4.3, which is not among the
    sources. It rewrites the status (and failure detail) of one entry. *)
Definition transition (log : MessageLog) (id : nat) (status : string)
    (detail : option JsVal) : MessageLog :=
  alter (λ entry,
           let entry := <["status" := JStr status]> entry in
           match detail with
           | Some d => <["failure_detail" := d]> entry
           | None => entry
           end)
        id log.

(** Modelled from the spec: [produce] of 4.4, which is not among the
    sources: derive the key, open a Pending entry before any network call,
    publish, then move that entry to Sent, or to Failed with the error
    surfaced to the caller. The reply has the shape the scripts read:
    [{ok, data: {idempotency_key}}] or [{ok, message}]. *)
Definition produce (P : Producer) (log : MessageLog)
    (doctype docname rule_name : JsVal) : MessageLog * JsVal :=
  let key := derive_key P rule_name doctype docname in
  let '(log, id) := open log "Produced" key rule_name doctype docname in
  match publish P rule_name doctype docname with
  | None =>
      (transition log id "Sent" None,
       JObj (list_to_map
               [ ("ok", JBool true);
                 ("data", JObj (list_to_map [("idempotency_key", key)])) ]))
  | Some detail =>
      (transition log id "Failed" (Some detail),
       JObj (list_to_map [("ok", JBool false); ("message", detail)]))
  end.

Definition arg (args : list (string * JsVal)) (k : string) : JsVal :=
  default JUndefined (snd <$> find (λ kv, String.eqb (fst kv) k) args).

(** Modelled from the spec: the Command/Query Gateway of 6, which is not
    among the sources. It serves a [frappe.call] to
    [connect.api.manual_produce] with [produce] and hands the reply to the
    call's callback as [r.message]; any other action leaves the log alone. *)
Definition serve (P : Producer) (log : MessageLog) (a : Action)
  : MessageLog * UI unit :=
  match a with
  | call method args _ _ _ callback _ =>
      if String.eqb method "connect.api.manual_produce" then
        let '(log, reply) :=
          produce P log (arg args "doctype") (arg args "docname")
                  (arg args "rule_name") in
        (log, callback (JObj (list_to_map [("message", reply)])))
      else (log, mret tt)
  | _ => (log, mret tt)
  end.

End Backend.

(* ===================================================================== *)
(** * What the specification says, in the vocabulary of the scripts *)
(* ===================================================================== *)

(** A document or reply object written as a list of properties. *)
Definition object (properties : list (string * JsVal)) : JsVal :=
  JObj (list_to_map properties).

(** The seven statuses of a Message Log entry with the colour the
    specification of the UI gives each (data model, section 3). *)
Definition status_palette : list (string * string) :=
  [ ("Pending", "orange"); ("Sent", "blue"); ("Delivered", "blue");
    ("Failed", "red"); ("Processed", "green"); ("Skipped", "grey");
    ("Dead Letter", "darkgrey") ].

(** The action [a] is a call of [connect.api.manual_produce] for the
    document [doctype] / [docname] through the rule [rule_name], with the
    screen frozen meanwhile. *)
Definition calls_manual_produce (a : Action) (doctype docname rule_name : JsVal)
  : Prop :=
  ∃ freeze_message callback,
    a = call "connect.api.manual_produce"
          [ ("doctype", doctype); ("docname", docname);
            ("rule_name", rule_name) ]
          true freeze_message None callback None.

(** The health row of one subsystem, from that subsystem's [status] and
    [detail] and nothing else: marked ok exactly when the status is ["ok"],
    and showing the detail, or "Connection failed" for a failed subsystem
    without one. *)
Definition health_row (label : string) (status detail : JsVal)
  : Outcome string :=
  let ok := str_eq status "ok" in
  ConnectSettings._build_health_row label (JBool ok)
    (if ok then detail else js_or detail (JStr "Connection failed")).

(** The markup of one row of the health dialog, written out: the icon (a
    green tick for a subsystem that is ok, a red cross otherwise), the label
    in bold and the detail in muted text. *)
Definition health_row_markup (label : string) (ok : bool) (detail : string)
  : string :=
  q "
		<div style='display: flex; align-items: center; padding: 8px 0; border-bottom: 1px solid var(--border-color);'>
			<span style='color: " ++ (if ok then "#28B463" else "#E74C3C") ++ q "; font-size: 18px; width: 24px; text-align: center;'>" ++ (if ok then "✓" else "✗") ++ q "</span>
			<strong style='margin-left: 8px; min-width: 140px;'>" ++ label ++ q "</strong>
			<span class='text-muted' style='margin-left: 12px;'>" ++ detail ++ q "</span>
		</div>
	".

(** The markup of the status banner for a failed broker and a reachable
    registry, written out: the warning alert with the orange pill, the
    title, Kafka crossed and Schema Registry ticked. *)
Definition kafka_failed_banner_markup (title : string) : string :=
  q "<div class='alert alert-warning p-2 mb-0' style='font-size: 0.85rem;'>
						<span class='indicator-pill orange'></span>
						<strong>" ++ title ++ q "</strong>
						<span class='text-muted ml-2'>
							Kafka: ✗ &nbsp;|&nbsp; Schema Registry: ✓
						</span>
					</div>".

(** The reply of the scenario of section 8: broker unreachable, registry
    reachable, under an envelope whose [ok] is [ok]. *)
Definition partial_failure_reply (ok : bool) : JsVal :=
  object
    [ ("message",
        object
          [ ("ok", JBool ok);
            ("data",
              object
                [ ("kafka",
                    object [ ("status", JStr "error");
                             ("detail", JStr "broker unreachable") ]);
                  ("schema_registry",
                    object [ ("status", JStr "ok");
                             ("detail", JStr "reachable") ]) ]) ]) ].

(** One row of [get_kafka_stats]: [{direction, status, count}]. *)
Record Stat : Type := {
  stat_direction : string;
  stat_status : string;
  stat_count : Z;
}.

Definition stat_entry (s : Stat) : JsVal :=
  object [ ("direction", JStr (stat_direction s));
           ("status", JStr (stat_status s));
           ("count", JNum (stat_count s)) ].

(** The sum of [count] over a list of rows, and the three selections the
    dashboard totals are sums over. *)
Definition sum_counts (stats : list Stat) : Z :=
  foldr Z.add 0%Z (stat_count <$> stats).

Definition is_produced (s : Stat) : bool :=
  String.eqb (stat_direction s) "Produced".

Definition is_consumed (s : Stat) : bool :=
  String.eqb (stat_direction s) "Consumed".

Definition is_failed (s : Stat) : bool :=
  String.eqb (stat_status s) "Failed" || String.eqb (stat_status s) "Dead Letter".

(** [if (b) total += count]. *)
Definition add_if (b : bool) (total count : Z) : Z :=
  if b then (total + count)%Z else total.

(** A site without a message catalogue, for the statements evaluated at a
    concrete input: [__] returns its text with every [{n}], [n] a digit,
    replaced by argument [n] as a string. *)
Fixpoint fill (args : list JsVal) (s : string) : string :=
  match s with
  | EmptyString => EmptyString
  | String c rest =>
      match c, rest with
      | "{"%char, String d (String "}"%char rest') =>
          let n := Ascii.nat_of_ascii d in
          match (if (48 <=? n)%nat && (n <=? 57)%nat
                 then to_string (default JUndefined (args !! (n - 48)%nat))
                 else Unmodelled) with
          | Ok text => text ++ fill args rest'
          | _ => String c (fill args rest)
          end
      | _, _ => String c (fill args rest)
      end
  end.

Definition untranslated : Translation := λ txt replace,
  match txt, replace with
  | JStr s, Some args => JStr (fill args s)
  | _, _ => txt
  end.

(** A form showing the document [properties]. *)
Definition form_of (properties : list (string * JsVal)) : Form :=
  {| doc := list_to_map properties; fields_dict_enabled := true; banners := 0 |}.

(** ** Vocabulary for the further properties *)

(** The markup of the link to a source document, written out: an anchor to
    [/app/<href>/<docname>] whose text is the doctype and the name. *)
Definition source_link_markup (href doctype docname : string) : string :=
  q "<a href='/app/" ++ href ++ "/" ++ docname ++ q "'>
					" ++ doctype ++ " " ++ docname ++ "
				</a>".

(** The server methods a run calls, in order. *)
Definition called_methods (acts : list Action) : list string :=
  omap (λ a, match a with
             | call method _ _ _ _ _ _ => Some method
             | _ => None
             end) acts.

(** The calls of a run that freeze the screen while they are served. *)
Definition freezing_calls (acts : list Action) : list string :=
  omap (λ a, match a with
             | call method _ true _ _ _ _ => Some method
             | _ => None
             end) acts.

(** Modelled framework behaviour: what jQuery's [remove] and [prepend] do
    to the number of status banners in the form. Only
    [_add_connection_status_section] ever inserts a banner, and it does so
    in the element it searches, so the banners under [frm.wrapper] are the
    banners under that element. *)
Definition banners_after (acts : list Action) (n : nat) : nat :=
  fold_left (λ n a, match a with
                    | banner_remove => 0%nat
                    | banner_prepend _ => S n
                    | _ => n
                    end) acts n.

(** The form [frm] with [n] banners in it. *)
Definition with_banners (frm : Form) (n : nat) : Form :=
  {| doc := doc frm;
     fields_dict_enabled := fields_dict_enabled frm;
     banners := n |}.


(** The document is saved: [frm.doc.__islocal] is falsy. *)
Definition saved (frm : Form) : bool := negb (truthy (field frm "__islocal")).

(* ===================================================================== *)
(** * Properties *)
(* ===================================================================== *)

Section Basics.

Lemma obj_get_own (o : gmap string JsVal) k v :
  o !! k = Some v → obj_get o k = v.
Proof. intros H. unfold obj_get. now rewrite H. Qed.

Lemma obj_get_missing (o : gmap string JsVal) k :
  o !! k = None → k ∉ object_prototype → obj_get o k = JUndefined.
Proof.
  intros H Hk. unfold obj_get, inherited. rewrite H.
  now rewrite bool_decide_eq_false_2.
Qed.

Lemma str_eq_true v lit : str_eq v lit = true ↔ v = JStr lit.
Proof.
  destruct v; simpl; try (split; [discriminate | congruence]).
  rewrite String.eqb_eq. split; congruence.
Qed.

Lemma truthy_js_or a b : truthy a = true → js_or a b = a.
Proof. unfold js_or. now intros ->. Qed.

Lemma append_assoc (a b c : string) : (a ++ b) ++ c = a ++ (b ++ c).
Proof.
  induction a as [| ch a IH]; [reflexivity |].
  change (String ch ((a ++ b) ++ c) = String ch (a ++ (b ++ c))).
  now f_equal.
Qed.

(** Sequencing after an expression that evaluates to a value. *)
Lemma eval_ok_bind {A B} (a : A) (f : A → UI B) : eval (Ok a) ≫= f = f a.
Proof. unfold eval, mbind, UI_bind. now destruct (f a). Qed.

Lemma prop_array_length items :
  prop (JArr items) "length" = Ok (JNum (Z.of_nat (length items))).
Proof. reflexivity. Qed.

Lemma js_gt0_num n : js_gt0 (JNum n) = Ok (0 <? n)%Z.
Proof. reflexivity. Qed.

Lemma prop_object (o : gmap string JsVal) k : prop (JObj o) k = Ok (obj_get o k).
Proof. reflexivity. Qed.

(** Reading below [r.message] when it is an object. *)
Lemma message_ok_object (r message : gmap string JsVal) :
  r !! "message" = Some (JObj message) →
  message_ok (JObj r) = Ok (obj_get message "ok").
Proof.
  intros H. unfold message_ok, path. rewrite !prop_object.
  rewrite (obj_get_own _ _ _ H). reflexivity.
Qed.

Lemma message_or_object (r message : gmap string JsVal) fallback :
  r !! "message" = Some (JObj message) →
  message_or (JObj r) fallback = Ok (obj_get message "message").
Proof.
  intros H. unfold message_or, path. rewrite !prop_object.
  rewrite (obj_get_own _ _ _ H). reflexivity.
Qed.

Lemma message_or_absent (r : gmap string JsVal) fallback :
  truthy (obj_get r "message") = false →
  message_or (JObj r) fallback = Ok fallback.
Proof.
  intros H. unfold message_or. rewrite prop_object.
  cbn [mbind Outcome_bind]. now rewrite H.
Qed.

Lemma message_ok_absent (r : gmap string JsVal) :
  truthy (obj_get r "message") = false →
  message_ok (JObj r) = Ok (obj_get r "message").
Proof.
  intros H. unfold message_ok, js_and. rewrite prop_object.
  cbn [mbind Outcome_bind]. now rewrite H.
Qed.

Lemma path_message (r message : gmap string JsVal) k :
  r !! "message" = Some (JObj message) →
  path (JObj r) ["message"; k] = Ok (obj_get message k).
Proof.
  intros H. unfold path. rewrite prop_object, (obj_get_own _ _ _ H).
  cbn [mbind Outcome_bind]. rewrite prop_object. reflexivity.
Qed.

Lemma path_message_data (r message data : gmap string JsVal) k :
  r !! "message" = Some (JObj message) →
  message !! "data" = Some (JObj data) →
  path (JObj r) ["message"; "data"; k] = Ok (obj_get data k).
Proof.
  intros H Hd. unfold path. rewrite prop_object, (obj_get_own _ _ _ H).
  cbn [mbind Outcome_bind]. rewrite prop_object, (obj_get_own _ _ _ Hd).
  cbn [mbind Outcome_bind]. rewrite prop_object. reflexivity.
Qed.

End Basics.

(** ** The status indicators *)

Section StatusIndicators.
Context (__ : Translation).

Import ConnectMessageLog ConnectMessageLogList.

(** The own keys of both maps are the seven statuses. *)
Lemma status_colors_dom :
  dom status_colors = list_to_set (status_palette.*1).
Proof. unfold status_colors. rewrite dom_list_to_map_L. reflexivity. Qed.

Lemma status_map_dom :
  dom (status_map __) = list_to_set (status_palette.*1).
Proof. unfold status_map. rewrite dom_list_to_map_L. reflexivity. Qed.

Lemma set_status_indicator_at (frm : Form) s key :
  field frm "status" = s → to_string s = Ok key →
  _set_status_indicator __ frm =
    ([set_indicator (__ s None)
        (js_or (obj_get status_colors key) (JStr "grey"))], Ok tt).
Proof.
  intros Hs Hkey. unfold _set_status_indicator. rewrite Hs, Hkey. reflexivity.
Qed.

Lemma get_indicator_at (doc : gmap string JsVal) s key :
  obj_get doc "status" = s → to_string s = Ok key →
  get_indicator __ doc =
    Ok (js_or (obj_get (status_map __) key)
              (JArr [__ s None; JStr "grey"; JStr ""])).
Proof.
  intros Hs Hkey. unfold get_indicator. rewrite Hs, Hkey. reflexivity.
Qed.

(** C7. The statuses the two indicator maps know are exactly the seven of
    the data model, and on each of them the form-view map and the list-view
    map give the same colour, the one of the palette: Pending orange, Sent
    and Delivered blue, Failed red, Processed green, Skipped grey, Dead
    Letter darkgrey. The form then shows that colour and the list view
    returns the translated label, that colour and the status filter. *)
Theorem status_maps_assign_same_colours :
  dom status_colors = list_to_set (status_palette.*1)
  ∧ dom (status_map __) = list_to_set (status_palette.*1)
  ∧ ∀ s c, (s, c) ∈ status_palette →
      status_colors !! s = Some (JStr c)
      ∧ status_map __ !! s =
          Some (JArr [__ (JStr s) None; JStr c; JStr ("status,=," ++ s)])
      ∧ (∀ frm : Form, field frm "status" = JStr s →
           _set_status_indicator __ frm =
             ([set_indicator (__ (JStr s) None) (JStr c)], Ok tt))
      ∧ (∀ doc : gmap string JsVal, obj_get doc "status" = JStr s →
           get_indicator __ doc =
             Ok (JArr [__ (JStr s) None; JStr c; JStr ("status,=," ++ s)])).
Proof.
  split; [apply status_colors_dom |].
  split; [apply status_map_dom |].
  intros s c Hin. unfold status_palette in Hin.
  repeat (apply elem_of_cons in Hin as [Heq | Hin];
          [inversion Heq; subst s c; clear Heq;
           split; [| split; [| split]];
           [ vm_compute; reflexivity
           | vm_compute; reflexivity
           | intros frm Hs;
             rewrite (set_status_indicator_at frm _ _ Hs eq_refl);
             vm_compute; reflexivity
           | intros doc Hs;
             rewrite (get_indicator_at doc _ _ Hs eq_refl);
             vm_compute; reflexivity ] |]).
  inversion Hin.
Qed.

(** C10. At the status ["constructor"], a name every object inherits from
    [Object.prototype], neither indicator falls back to grey: the list view
    returns the inherited built-in instead of a triple, and the form passes
    it on as the colour. *)
Theorem indicators_at_inherited_name :
  get_indicator __ {[ "status" := JStr "constructor" ]}
    = Ok (JNative "Object.prototype.constructor")
  ∧ _set_status_indicator __ (form_of [("status", JStr "constructor")])
    = ([set_indicator (__ (JStr "constructor") None)
          (JNative "Object.prototype.constructor")], Ok tt).
Proof. split; vm_compute; reflexivity. Qed.

(** Away from the seven statuses and from the names of [Object.prototype],
    every status string does fall back to grey, with the raw status as the
    label and an empty filter. *)
Lemma indicators_fall_back_to_grey s (frm : Form) (doc : gmap string JsVal) :
  s ∉ status_palette.*1 → s ∉ object_prototype →
  (field frm "status" = JStr s →
     _set_status_indicator __ frm =
       ([set_indicator (__ (JStr s) None) (JStr "grey")], Ok tt))
  ∧ (obj_get doc "status" = JStr s →
       get_indicator __ doc =
         Ok (JArr [__ (JStr s) None; JStr "grey"; JStr ""])).
Proof.
  intros Hs Hp.
  assert (Hc : status_colors !! s = None).
  { apply not_elem_of_dom. rewrite status_colors_dom.
    now rewrite elem_of_list_to_set. }
  assert (Hm : status_map __ !! s = None).
  { apply not_elem_of_dom. rewrite status_map_dom.
    now rewrite elem_of_list_to_set. }
  split; intros Hst.
  - rewrite (set_status_indicator_at frm (JStr s) s Hst eq_refl).
    now rewrite (obj_get_missing _ _ Hc Hp).
  - rewrite (get_indicator_at doc (JStr s) s Hst eq_refl).
    now rewrite (obj_get_missing _ _ Hm Hp).
Qed.

End StatusIndicators.

(** ** The producer behind [manual_produce] *)

Section ProducerModel.
Import Backend.

Lemma transition_last (log : MessageLog) entry status detail :
  transition (app log [entry]) (length log) status detail =
    app log [match detail with
             | Some d => <["failure_detail" := d]> (<["status" := JStr status]> entry)
             | None => <["status" := JStr status]> entry
             end].
Proof.
  unfold transition. rewrite alter_app_r_alt by lia.
  rewrite Nat.sub_diag. reflexivity.
Qed.

(** [produce] leaves every entry already in the log as it is and adds one
    entry, which names the document and the rule it was called with. *)
Lemma produce_opens_new_entry P (log : MessageLog) doctype docname rule_name :
  ∃ entry reply,
    produce P log doctype docname rule_name = (app log [entry], reply)
    ∧ entry !! "direction" = Some (JStr "Produced")
    ∧ entry !! "source_doctype" = Some doctype
    ∧ entry !! "source_docname" = Some docname
    ∧ entry !! "rule_name" = Some rule_name.
Proof.
  unfold produce, open.
  destruct (publish P rule_name doctype docname) as [detail |];
    rewrite transition_last; eexists _, _;
    (split; [reflexivity |]); (split; [| split; [| split]]);
    vm_compute; reflexivity.
Qed.

Lemma serve_manual_produce P (log : MessageLog) a b c
    freeze freeze_message async callback error :
  serve P log
    (call "connect.api.manual_produce"
       [("doctype", a); ("docname", b); ("rule_name", c)]
       freeze freeze_message async callback error) =
  (let '(log, reply) := produce P log a b c in
   (log, callback (JObj (list_to_map [("message", reply)])))).
Proof. reflexivity. Qed.

End ProducerModel.

(** ** Retry Production and Manual Push *)

Section Produce.
Context (__ : Translation).

Import ConnectMessageLog ConnectEmissionRule Backend.

Lemma add_retry_button_offered (frm : Form) :
  field frm "status" = JStr "Failed" →
  field frm "direction" = JStr "Produced" →
  truthy (field frm "source_doctype") = true →
  truthy (field frm "source_docname") = true →
  truthy (field frm "rule_name") = true →
  _add_retry_button __ frm =
    ([add_custom_button (__ (JStr "Retry Production") None)
        (retry_click __ frm) None], Ok tt).
Proof.
  intros Hs Hd H1 H2 H3. unfold _add_retry_button.
  rewrite Hs, Hd, H1, H2, H3. reflexivity.
Qed.

Lemma add_retry_button_withheld (frm : Form) :
  ¬ (field frm "status" = JStr "Failed"
     ∧ field frm "direction" = JStr "Produced"
     ∧ truthy (field frm "source_doctype") = true
     ∧ truthy (field frm "source_docname") = true
     ∧ truthy (field frm "rule_name") = true) →
  _add_retry_button __ frm = ([], Ok tt).
Proof.
  intros Hnot. unfold _add_retry_button.
  destruct (str_eq (field frm "status") "Failed") eqn:Hs; [| reflexivity].
  destruct (str_eq (field frm "direction") "Produced") eqn:Hd; [| reflexivity].
  destruct (truthy (field frm "source_doctype")) eqn:H1; [| reflexivity].
  destruct (truthy (field frm "source_docname")) eqn:H2; [| reflexivity].
  destruct (truthy (field frm "rule_name")) eqn:H3; [| reflexivity].
  apply str_eq_true in Hs, Hd. exfalso. apply Hnot. repeat split; assumption.
Qed.

Lemma retry_conditions_decided (frm : Form) :
  let offered :=
    field frm "status" = JStr "Failed"
    ∧ field frm "direction" = JStr "Produced"
    ∧ truthy (field frm "source_doctype") = true
    ∧ truthy (field frm "source_docname") = true
    ∧ truthy (field frm "rule_name") = true in
  offered ∨ ¬ offered.
Proof.
  cbv zeta.
  destruct (str_eq (field frm "status") "Failed") eqn:Hs;
    [apply str_eq_true in Hs |];
    [| right; intros (H & _); apply str_eq_true in H; congruence].
  destruct (str_eq (field frm "direction") "Produced") eqn:Hd;
    [apply str_eq_true in Hd |];
    [| right; intros (_ & H & _); apply str_eq_true in H; congruence].
  destruct (truthy (field frm "source_doctype")) eqn:H1;
    [| right; intros (_ & _ & H & _); congruence].
  destruct (truthy (field frm "source_docname")) eqn:H2;
    [| right; intros (_ & _ & _ & H & _); congruence].
  destruct (truthy (field frm "rule_name")) eqn:H3;
    [| right; intros (_ & _ & _ & _ & H); congruence].
  left. repeat split; assumption.
Qed.

(** C2. The Retry Production button is on the form exactly when the entry
    is Failed, Produced, and has a source document type, a source document
    name and a rule name. Its click asks for confirmation and then makes one
    call to [connect.api.manual_produce] with exactly those three values;
    served by the producer, that call leaves every existing entry of the log
    as it was, the failed one included, and appends a new entry for
    the same source document and rule. *)
Theorem retry_offered_and_reproduces (frm : Form) :
  ((∃ label click group,
       add_custom_button label click group ∈ actions (_add_retry_button __ frm))
   ↔ field frm "status" = JStr "Failed"
     ∧ field frm "direction" = JStr "Produced"
     ∧ truthy (field frm "source_doctype") = true
     ∧ truthy (field frm "source_docname") = true
     ∧ truthy (field frm "rule_name") = true)
  ∧ (∀ label click group,
       add_custom_button label click group ∈ actions (_add_retry_button __ frm) →
       ∃ question on_yes retry freeze_message callback,
         click tt = ([confirm question on_yes], Ok tt)
         ∧ on_yes tt = ([retry], Ok tt)
         ∧ retry = call "connect.api.manual_produce"
                     [ ("doctype", field frm "source_doctype");
                       ("docname", field frm "source_docname");
                       ("rule_name", field frm "rule_name") ]
                     true freeze_message None callback None
         ∧ ∀ P (log : MessageLog), ∃ entry ui,
             serve P log retry = (app log [entry], ui)
             ∧ (∀ i, log !! i = Some (doc frm) →
                     app log [entry] !! i = Some (doc frm))
             ∧ entry !! "direction" = Some (JStr "Produced")
             ∧ entry !! "source_doctype" = Some (field frm "source_doctype")
             ∧ entry !! "source_docname" = Some (field frm "source_docname")
             ∧ entry !! "rule_name" = Some (field frm "rule_name")).
Proof.
  destruct (retry_conditions_decided frm) as [Hyes | Hno].
  - destruct Hyes as (Hs & Hd & H1 & H2 & H3).
    rewrite (add_retry_button_offered frm Hs Hd H1 H2 H3). split.
    + split; [intros _; repeat split; assumption |].
      intros _. eexists _, _, _. apply list_elem_of_singleton. reflexivity.
    + intros label click group Hin.
      apply list_elem_of_singleton in Hin. injection Hin as -> -> ->.
      eexists _, _, _, _, _.
      split; [reflexivity |]. split; [reflexivity |]. split; [reflexivity |].
      intros P log.
      destruct (produce_opens_new_entry P log (field frm "source_doctype")
                  (field frm "source_docname") (field frm "rule_name"))
        as (entry & reply & Hp & Hdir & Hdt & Hdn & Hrn).
      exists entry. eexists. split.
      { rewrite serve_manual_produce, Hp. reflexivity. }
      split; [| repeat split; assumption].
      intros i Hi. rewrite lookup_app_l; [assumption |].
      eapply lookup_lt_Some, Hi.
  - rewrite (add_retry_button_withheld frm Hno). split.
    + split; [| intros H; contradiction].
      intros (label & click & group & Hin). inversion Hin.
    + intros label click group Hin. inversion Hin.
Qed.

(** C3. Manual Push and Retry Production end in a call of the same server
    method, [connect.api.manual_produce], with the same three arguments in
    the same order (doctype, docname, rule_name) and the same options; the
    producer serves both with the same [produce]. Only what leads to the
    call differs: a dialog there, a confirmation here. *)
Theorem manual_push_and_retry_same_operation
    (rule_frm log_frm : Form) (values : gmap string JsVal) :
  ∃ push retry,
    manual_push_primary_action __ rule_frm (JObj values)
      = ([dialog_hide; push], Ok tt)
    ∧ retry_confirmed __ log_frm tt = ([retry], Ok tt)
    ∧ calls_manual_produce push
        (obj_get values "doctype") (obj_get values "docname")
        (field rule_frm "name")
    ∧ calls_manual_produce retry
        (field log_frm "source_doctype") (field log_frm "source_docname")
        (field log_frm "rule_name")
    ∧ ∀ P (log : MessageLog),
        (serve P log push).1 =
          (produce P log (obj_get values "doctype") (obj_get values "docname")
             (field rule_frm "name")).1
        ∧ (serve P log retry).1 =
            (produce P log (field log_frm "source_doctype")
               (field log_frm "source_docname") (field log_frm "rule_name")).1.
Proof.
  eexists _, _.
  split; [reflexivity |]. split; [reflexivity |].
  split; [eexists _, _; reflexivity |].
  split; [eexists _, _; reflexivity |].
  intros P log. rewrite !serve_manual_produce.
  split.
  - now destruct (produce P log (obj_get values "doctype")
                    (obj_get values "docname") (field rule_frm "name")).
  - now destruct (produce P log (field log_frm "source_doctype")
                    (field log_frm "source_docname") (field log_frm "rule_name")).
Qed.

(** C5. When a [manual_produce] reply is a success ([r.message.ok] truthy)
    whose data carries an idempotency key, the green alert of the Manual
    Push path and that of the Retry path are both built from exactly that
    key; the retry path then reloads the document. *)
Theorem success_alert_shows_idempotency_key
    (r message data : gmap string JsVal) (key : JsVal) :
  r !! "message" = Some (JObj message) →
  truthy (obj_get message "ok") = true →
  message !! "data" = Some (JObj data) →
  data !! "idempotency_key" = Some key →
  manual_push_callback __ (JObj r) =
    ([show_alert (__ (JStr "Message produced! Key: {0}") (Some [key])) "green"],
     Ok tt)
  ∧ retry_callback __ (JObj r) =
      ([show_alert (__ (JStr "Message re-produced with key: {0}") (Some [key]))
          "green";
        reload_doc], Ok tt).
Proof.
  intros Hr Hok Hdata Hkey.
  unfold manual_push_callback, retry_callback.
  rewrite (message_ok_object _ _ Hr), (path_message_data _ _ _ _ Hr Hdata).
  rewrite (obj_get_own _ _ _ Hkey).
  cbn [eval mbind UI_bind]. rewrite Hok. split; reflexivity.
Qed.

Lemma emission_rule_refresh_actions (frm : Form) :
  ∃ total failed,
    actions (ConnectEmissionRule.refresh __ frm) =
      app (if negb (truthy (field frm "__islocal")) && truthy (field frm "enabled")
           then [add_custom_button (__ (JStr "Manual Push") None)
                   (manual_push_click __ frm) (Some (__ (JStr "Actions") None))]
           else [])
          (if truthy (field frm "__islocal") then []
           else [ call "frappe.client.get_count" total false None (Some true)
                    (total_messages_callback __) None;
                  call "frappe.client.get_count" failed false None (Some true)
                    (failed_messages_callback __) None ]).
Proof.
  eexists _, _.
  unfold ConnectEmissionRule.refresh, _add_recent_logs_section.
  destruct (truthy (field frm "__islocal"));
    destruct (truthy (field frm "enabled")); reflexivity.
Qed.

(** C9. On the Emission Rule form the Manual Push button is there exactly
    when the rule is saved and enabled. Its dialog has the field [doctype]
    read-only with the rule's [source_doctype] as default, so whatever the
    operator types, the values the dialog hands over make the call target
    the rule's own source document type (and the rule itself). *)
Theorem manual_push_targets_rule_doctype (frm : Form) :
  ((∃ label click group,
       add_custom_button label click group
         ∈ actions (ConnectEmissionRule.refresh __ frm))
   ↔ truthy (field frm "__islocal") = false
     ∧ truthy (field frm "enabled") = true)
  ∧ (∀ label click group,
       add_custom_button label click group
         ∈ actions (ConnectEmissionRule.refresh __ frm) →
       ∃ title fields primary_label primary_action,
         click tt =
           ([dialog_show title fields primary_label primary_action], Ok tt)
         ∧ (∃ f, f ∈ fields
                 ∧ df_fieldname f = "doctype"
                 ∧ df_read_only f = true
                 ∧ df_default f = field frm "source_doctype")
         ∧ ∀ typed : gmap string JsVal, ∃ push docname,
             primary_action (JObj (dialog_values fields typed))
               = ([dialog_hide; push], Ok tt)
             ∧ calls_manual_produce push
                 (field frm "source_doctype") docname (field frm "name")).
Proof.
  destruct (emission_rule_refresh_actions frm) as (total & failed & ->).
  assert (Hcalls : ∀ label click group,
            add_custom_button label click group
              ∈ (if truthy (field frm "__islocal") then []
                 else [ call "frappe.client.get_count" total false None
                          (Some true) (total_messages_callback __) None;
                        call "frappe.client.get_count" failed false None
                          (Some true) (failed_messages_callback __) None ])
            → False).
  { intros label click group Hin.
    destruct (truthy (field frm "__islocal")); [inversion Hin |].
    repeat (apply elem_of_cons in Hin as [Heq | Hin]; [discriminate |]).
    inversion Hin. }
  destruct (truthy (field frm "__islocal")) eqn:Hlocal;
    destruct (truthy (field frm "enabled")) eqn:Henabled;
    cbn [negb andb app] in *.
  1, 2, 4: split;
    [ split; [intros (label & click & group & Hin) | intros [? ?]; congruence]
    | intros label click group Hin ];
    exfalso; (eapply Hcalls; exact Hin).
  split.
  - split; [intros _; split; reflexivity |].
    intros _. eexists _, _, _. apply elem_of_cons. left. reflexivity.
  - intros label click group Hin.
    apply elem_of_cons in Hin as [Heq | Hin];
      [| exfalso; eapply Hcalls; exact Hin].
    injection Heq as -> -> ->.
    eexists _, _, _, _. split; [reflexivity |].
    split.
    + eexists. split; [apply elem_of_cons; left; reflexivity |].
      repeat split.
    + intros typed. eexists _, _. split.
      * unfold manual_push_primary_action. rewrite !prop_object.
        assert (Hdoctype :
                  obj_get (dialog_values (manual_push_fields __ frm) typed)
                    "doctype" = field frm "source_doctype")
          by (apply obj_get_own; vm_compute; reflexivity).
        rewrite Hdoctype. reflexivity.
      * eexists _, _. reflexivity.
Qed.

End Produce.

(** ** The 24h statistics *)

Section Stats.
Context (__ : Translation).

Import ConnectSettings.

Lemma stat_entry_direction s :
  prop (stat_entry s) "direction" = Ok (JStr (stat_direction s)).
Proof. destruct s. vm_compute. reflexivity. Qed.

Lemma stat_entry_status s :
  prop (stat_entry s) "status" = Ok (JStr (stat_status s)).
Proof. destruct s. vm_compute. reflexivity. Qed.

Lemma stat_entry_count s :
  prop (stat_entry s) "count" = Ok (JNum (stat_count s)).
Proof. destruct s. vm_compute. reflexivity. Qed.

Lemma safe_integer_positive : (0 < safe_integer)%Z.
Proof. reflexivity. Qed.

Lemma js_add_safe (a b : Z) :
  (0 ≤ a)%Z → (0 ≤ b)%Z → (a + b ≤ safe_integer)%Z →
  js_add (JNum a) (JNum b) = Ok (JNum (a + b)).
Proof.
  intros Ha Hb Hab. unfold js_add, is_safe. cbn [to_number mbind Outcome_bind].
  rewrite bool_decide_eq_true_2; [reflexivity |].
  pose proof safe_integer_positive as Hpos. revert Hab Hpos.
  generalize safe_integer. intros bound Hab Hpos. lia.
Qed.

(** One entry adds its count to each total whose selection it is in. *)
Lemma stats_entry_adds (a b c : Z) s :
  (0 ≤ a)%Z → (0 ≤ b)%Z → (0 ≤ c)%Z → (0 ≤ stat_count s)%Z →
  (a + stat_count s ≤ safe_integer)%Z →
  (b + stat_count s ≤ safe_integer)%Z →
  (c + stat_count s ≤ safe_integer)%Z →
  stats_entry (JNum a, JNum b, JNum c) (stat_entry s) =
    Ok (JNum (add_if (is_produced s) a (stat_count s)),
        JNum (add_if (is_consumed s) b (stat_count s)),
        JNum (add_if (is_failed s) c (stat_count s))).
Proof.
  intros Ha Hb Hc Hs Has Hbs Hcs. unfold stats_entry.
  rewrite !stat_entry_direction, !stat_entry_status, !stat_entry_count.
  cbn [mbind Outcome_bind str_eq].
  rewrite !js_add_safe by assumption.
  unfold is_produced, is_consumed, is_failed, add_if.
  destruct (String.eqb (stat_direction s) "Produced");
    destruct (String.eqb (stat_direction s) "Consumed");
    destruct (String.eqb (stat_status s) "Failed");
    destruct (String.eqb (stat_status s) "Dead Letter"); reflexivity.
Qed.

Lemma sum_counts_cons s stats :
  sum_counts (s :: stats) = (stat_count s + sum_counts stats)%Z.
Proof. reflexivity. Qed.

Lemma sum_counts_nonneg stats :
  Forall (λ s, 0 ≤ stat_count s)%Z stats → (0 ≤ sum_counts stats)%Z.
Proof.
  induction 1 as [| s stats Hs _ IH]; [reflexivity |].
  rewrite sum_counts_cons. lia.
Qed.

Lemma sum_counts_filter_cons (P : Stat → bool) s stats :
  sum_counts (List.filter P (s :: stats)) =
    (add_if (P s) 0 (stat_count s) + sum_counts (List.filter P stats))%Z.
Proof.
  cbn [List.filter]. unfold add_if. destruct (P s); [| reflexivity].
  rewrite sum_counts_cons. lia.
Qed.

(** The loop: each running total grows by the sum of its selection. *)
Lemma stats_forEach_sums stats : ∀ a b c : Z,
  Forall (λ s, 0 ≤ stat_count s)%Z stats →
  (0 ≤ a)%Z → (0 ≤ b)%Z → (0 ≤ c)%Z →
  (a + sum_counts stats ≤ safe_integer)%Z →
  (b + sum_counts stats ≤ safe_integer)%Z →
  (c + sum_counts stats ≤ safe_integer)%Z →
  stats_forEach (JNum a, JNum b, JNum c) (stat_entry <$> stats) =
    Ok (JNum (a + sum_counts (List.filter is_produced stats)),
        JNum (b + sum_counts (List.filter is_consumed stats)),
        JNum (c + sum_counts (List.filter is_failed stats))).
Proof.
  induction stats as [| s stats IH]; intros a b c Hall Ha Hb Hc Has Hbs Hcs.
  - cbn. now rewrite !Z.add_0_r.
  - apply Forall_cons in Hall as [Hs Hall].
    pose proof (sum_counts_nonneg stats Hall) as Hrest.
    rewrite sum_counts_cons in Has, Hbs, Hcs.
    rewrite fmap_cons. cbn [stats_forEach].
    rewrite stats_entry_adds by (assumption || lia).
    cbn [mbind Outcome_bind].
    rewrite IH by (try assumption; unfold add_if;
                   repeat match goal with |- context [if ?b then _ else _] =>
                            destruct b end; lia).
    rewrite !sum_counts_filter_cons. unfold add_if.
    destruct (is_produced s), (is_consumed s), (is_failed s);
      repeat match goal with
             | |- Ok _ = Ok _ => f_equal
             | |- (_, _) = (_, _) => f_equal
             | |- JNum _ = JNum _ => f_equal
             end; lia.
Qed.

(** C4. For a successful reply of [get_kafka_stats] whose [stats] is a
    non-empty list of rows [{direction, status, count}], with counts that
    are non-negative integers and a total within the exactly represented
    integers, the dashboard gets three indicators and nothing else:
    Produced is the sum of [count] over the rows with direction Produced,
    Consumed the sum over direction Consumed, Failed the sum over the rows
    whose status is Failed or Dead Letter, whatever their direction. The
    right-hand side mentions nothing but the rows of the reply. *)
Theorem stats_totals_are_sums
    (r message data : gmap string JsVal) (stats : list Stat) :
  r !! "message" = Some (JObj message) →
  truthy (obj_get message "ok") = true →
  message !! "data" = Some (JObj data) →
  data !! "stats" = Some (JArr (stat_entry <$> stats)) →
  stats ≠ [] →
  Forall (λ s, 0 ≤ stat_count s)%Z stats →
  (sum_counts stats ≤ safe_integer)%Z →
  let produced := sum_counts (List.filter is_produced stats) in
  let consumed := sum_counts (List.filter is_consumed stats) in
  let failed := sum_counts (List.filter is_failed stats) in
  stats_callback __ (JObj r) =
    ([ add_indicator
         (__ (JStr "Produced (24h): {0}") (Some [JNum produced]))
         (if (0 <? produced)%Z then "blue" else "grey");
       add_indicator
         (__ (JStr "Consumed (24h): {0}") (Some [JNum consumed]))
         (if (0 <? consumed)%Z then "green" else "grey");
       add_indicator
         (__ (JStr "Failed (24h): {0}") (Some [JNum failed]))
         (if (0 <? failed)%Z then "red" else "grey") ],
     Ok tt).
Proof.
  intros Hr Hok Hdata Hstats Hne Hall Hsum. cbv zeta.
  assert (Hlen : truthy (JNum (Z.of_nat (length (stat_entry <$> stats)))) = true).
  { destruct stats; [congruence |]. cbn [truthy fmap list_fmap length].
    apply negb_true_iff, Z.eqb_neq. lia. }
  unfold stats_callback.
  rewrite (message_ok_object _ _ Hr), eval_ok_bind, Hok.
  rewrite (path_message_data _ _ _ _ Hr Hdata), (obj_get_own _ _ _ Hstats).
  cbn [mbind Outcome_bind].
  rewrite eval_ok_bind, truthy_js_or by reflexivity.
  rewrite prop_array_length, eval_ok_bind, Hlen. cbn [negb].
  rewrite (stats_forEach_sums stats 0 0 0 Hall) by
    (try reflexivity; rewrite ?Z.add_0_l; try assumption; lia).
  rewrite eval_ok_bind, !Z.add_0_l, !js_gt0_num.
  reflexivity.
Qed.

(** Without rows there is nothing to sum: an ok reply whose [stats] is
    empty or missing adds no indicator. *)
Lemma stats_empty_adds_nothing (r message data : gmap string JsVal) :
  r !! "message" = Some (JObj message) →
  truthy (obj_get message "ok") = true →
  message !! "data" = Some (JObj data) →
  js_or (obj_get data "stats") (JArr []) = JArr [] →
  stats_callback __ (JObj r) = ([], Ok tt).
Proof.
  intros Hr Hok Hdata Hstats. unfold stats_callback.
  rewrite (message_ok_object _ _ Hr), eval_ok_bind, Hok.
  rewrite (path_message_data _ _ _ _ Hr Hdata).
  cbn [mbind Outcome_bind]. rewrite Hstats, eval_ok_bind.
  rewrite prop_array_length, eval_ok_bind. reflexivity.
Qed.

End Stats.

(** ** Test Connection, the status banner and Refresh Schemas *)

Section Health.
Context (__ : Translation).

Import ConnectSettings.

Lemma subsystem_ok_object (data o : gmap string JsVal) sub :
  data !! sub = Some (JObj o) →
  subsystem_ok (JObj data) sub = Ok (JBool (str_eq (obj_get o "status") "ok")).
Proof.
  intros H. unfold subsystem_ok, path, js_and.
  rewrite !prop_object, (obj_get_own _ _ _ H).
  cbn [mbind Outcome_bind truthy]. rewrite prop_object. reflexivity.
Qed.

Lemma subsystem_detail_object (data o : gmap string JsVal) sub (ok : bool) :
  data !! sub = Some (JObj o) →
  subsystem_detail (JObj data) sub (JBool ok) =
    Ok (if ok then obj_get o "detail"
        else js_or (obj_get o "detail") (JStr "Connection failed")).
Proof.
  intros H. unfold subsystem_detail, path.
  rewrite !prop_object, (obj_get_own _ _ _ H).
  cbn [mbind Outcome_bind]. rewrite prop_object. reflexivity.
Qed.

(** The callback on a reply that is ok and names both subsystems. *)
Lemma test_connection_callback_ok
    (r message data kafka registry : gmap string JsVal) kafka_row registry_row :
  r !! "message" = Some (JObj message) →
  truthy (obj_get message "ok") = true →
  message !! "data" = Some (JObj data) →
  data !! "kafka" = Some (JObj kafka) →
  data !! "schema_registry" = Some (JObj registry) →
  health_row "Kafka Brokers" (obj_get kafka "status") (obj_get kafka "detail")
    = Ok kafka_row →
  health_row "Schema Registry"
    (obj_get registry "status") (obj_get registry "detail") = Ok registry_row →
  let all_ok := str_eq (obj_get kafka "status") "ok"
                && str_eq (obj_get registry "status") "ok" in
  test_connection_callback __ (JObj r) =
    ([msgprint
        (if all_ok then __ (JStr "All Connected") None
         else __ (JStr "Connection Issues") None)
        (JStr (q "<div class='connect-health-result'>"
               ++ kafka_row ++ registry_row ++ "</div>"))
        (if all_ok then "green" else "red")], Ok tt).
Proof.
  intros Hr Hok Hdata Hkafka Hregistry Hkrow Hrrow. cbv zeta.
  unfold health_row in Hkrow, Hrrow.
  unfold test_connection_callback.
  rewrite (message_ok_object _ _ Hr), eval_ok_bind, Hok.
  rewrite (path_message _ _ _ Hr), (obj_get_own _ _ _ Hdata), eval_ok_bind.
  rewrite (subsystem_ok_object _ _ _ Hkafka), eval_ok_bind.
  rewrite (subsystem_ok_object _ _ _ Hregistry), eval_ok_bind.
  rewrite (subsystem_detail_object _ _ _ _ Hkafka), eval_ok_bind.
  rewrite Hkrow, eval_ok_bind.
  rewrite (subsystem_detail_object _ _ _ _ Hregistry), eval_ok_bind.
  rewrite Hrrow, eval_ok_bind.
  cbn [truthy]. rewrite !append_assoc. reflexivity.
Qed.

(** The callback on a reply object that is not ok. *)
Lemma test_connection_callback_not_ok (r message : gmap string JsVal) :
  r !! "message" = Some (JObj message) →
  truthy (obj_get message "ok") = false →
  test_connection_callback __ (JObj r) =
    ([msgprint (__ (JStr "Connection Test Failed") None)
        (obj_get message "message") "red"], Ok tt).
Proof.
  intros Hr Hok. unfold test_connection_callback.
  rewrite (message_ok_object _ _ Hr), eval_ok_bind, Hok.
  rewrite (message_or_object _ _ _ Hr), eval_ok_bind. reflexivity.
Qed.

(** A row, written out: the label, the tick or the cross of the status,
    and the detail as text, "Connection failed" standing in for the detail
    of a failed subsystem that has none. *)
Lemma health_row_renders label status detail text :
  to_string detail = Ok text →
  health_row label status detail =
    Ok (health_row_markup label (str_eq status "ok")
          (if str_eq status "ok" then text
           else if truthy detail then text else "Connection failed")).
Proof.
  intros Htext. unfold health_row, _build_health_row, js_or.
  destruct (str_eq status "ok"); cbn [truthy].
  - rewrite Htext. reflexivity.
  - destruct (truthy detail); [rewrite Htext |]; reflexivity.
Qed.

(** C6. Whenever a [test_connection] reply is ok and names both
    subsystems, the message shown holds exactly two rows: the row labelled
    Kafka Brokers followed by the row labelled Schema Registry. Each row is
    written out from that subsystem's own fields and nothing else: a green
    tick when its own status is ["ok"] and a red cross otherwise, and its
    own detail as text ("Connection failed" when it failed without one).
    Whether one subsystem reports an error changes only that subsystem's
    row, the title and the colour of the dialog. *)
Theorem both_health_rows_rendered
    (r message data kafka registry : gmap string JsVal)
    (kafka_text registry_text : string) :
  r !! "message" = Some (JObj message) →
  truthy (obj_get message "ok") = true →
  message !! "data" = Some (JObj data) →
  data !! "kafka" = Some (JObj kafka) →
  data !! "schema_registry" = Some (JObj registry) →
  to_string (obj_get kafka "detail") = Ok kafka_text →
  to_string (obj_get registry "detail") = Ok registry_text →
  let kafka_ok := str_eq (obj_get kafka "status") "ok" in
  let sr_ok := str_eq (obj_get registry "status") "ok" in
  test_connection_callback __ (JObj r) =
    ([msgprint
        (if kafka_ok && sr_ok then __ (JStr "All Connected") None
         else __ (JStr "Connection Issues") None)
        (JStr (q "<div class='connect-health-result'>"
               ++ health_row_markup "Kafka Brokers" kafka_ok
                    (if kafka_ok then kafka_text
                     else if truthy (obj_get kafka "detail") then kafka_text
                          else "Connection failed")
               ++ health_row_markup "Schema Registry" sr_ok
                    (if sr_ok then registry_text
                     else if truthy (obj_get registry "detail")
                          then registry_text
                          else "Connection failed")
               ++ "</div>"))
        (if kafka_ok && sr_ok then "green" else "red")], Ok tt).
Proof.
  intros Hr Hok Hdata Hkafka Hregistry Hktext Hrtext. cbv zeta.
  exact (test_connection_callback_ok r message data kafka registry _ _
           Hr Hok Hdata Hkafka Hregistry
           (health_row_renders "Kafka Brokers" _ _ _ Hktext)
           (health_row_renders "Schema Registry" _ _ _ Hrtext)).
Qed.

(** The banner on a reply that is ok and names both subsystems. *)
Lemma connection_status_callback_ok
    (r message data kafka registry : gmap string JsVal) title :
  r !! "message" = Some (JObj message) →
  truthy (obj_get message "ok") = true →
  message !! "data" = Some (JObj data) →
  data !! "kafka" = Some (JObj kafka) →
  data !! "schema_registry" = Some (JObj registry) →
  let kafka_ok := str_eq (obj_get kafka "status") "ok" in
  let sr_ok := str_eq (obj_get registry "status") "ok" in
  to_string (if kafka_ok && sr_ok then __ (JStr "Connected") None
             else __ (JStr "Connection Issues") None) = Ok title →
  connection_status_callback __ (JObj r) =
    ([banner_html (banner_checked (kafka_ok && sr_ok) kafka_ok sr_ok title)],
     Ok tt).
Proof.
  intros Hr Hok Hdata Hkafka Hregistry. cbv zeta. intros Htitle.
  unfold connection_status_callback.
  rewrite (message_ok_object _ _ Hr), eval_ok_bind, Hok.
  rewrite (path_message _ _ _ Hr), (obj_get_own _ _ _ Hdata), eval_ok_bind.
  rewrite (subsystem_ok_object _ _ _ Hkafka), eval_ok_bind.
  rewrite (subsystem_ok_object _ _ _ Hregistry), eval_ok_bind.
  cbn [truthy]. rewrite Htitle, eval_ok_bind. reflexivity.
Qed.

(** C1, as the scripts have it. Take a [test_connection] reply whose data
    reports the broker in error and the registry ok, each with a detail
    string. If the envelope's [ok] is truthy, the dialog is the red
    "Connection Issues" one and holds two rows, written out: the Kafka
    Brokers row with the red cross and the broker's detail ("Connection
    failed" if that is empty), then the Schema Registry row with the green
    tick and the registry's detail; and the banner is the warning one,
    written out, with Kafka crossed and Schema Registry ticked. If the
    envelope's [ok] is falsy, the dialog is "Connection Test Failed" and
    holds the envelope's [message] field alone. *)
Theorem partial_failure_shown_when_reply_ok
    (r message data kafka registry : gmap string JsVal)
    (kafka_detail registry_detail : string) :
  r !! "message" = Some (JObj message) →
  message !! "data" = Some (JObj data) →
  data !! "kafka" = Some (JObj kafka) →
  data !! "schema_registry" = Some (JObj registry) →
  obj_get kafka "status" = JStr "error" →
  obj_get registry "status" = JStr "ok" →
  obj_get kafka "detail" = JStr kafka_detail →
  obj_get registry "detail" = JStr registry_detail →
  (truthy (obj_get message "ok") = true →
     test_connection_callback __ (JObj r) =
       ([msgprint (__ (JStr "Connection Issues") None)
           (JStr (q "<div class='connect-health-result'>"
                  ++ health_row_markup "Kafka Brokers" false
                       (if String.eqb kafka_detail "" then "Connection failed"
                        else kafka_detail)
                  ++ health_row_markup "Schema Registry" true registry_detail
                  ++ "</div>"))
           "red"], Ok tt)
     ∧ ∀ title,
         to_string (__ (JStr "Connection Issues") None) = Ok title →
         connection_status_callback __ (JObj r) =
           ([banner_html (kafka_failed_banner_markup title)], Ok tt))
  ∧ (truthy (obj_get message "ok") = false →
       test_connection_callback __ (JObj r) =
         ([msgprint (__ (JStr "Connection Test Failed") None)
             (obj_get message "message") "red"], Ok tt)).
Proof.
  intros Hr Hdata Hkafka Hregistry Hks Hrs Hkd Hrd. split; intros Hok.
  - split.
    + assert (Hktext : to_string (obj_get kafka "detail") = Ok kafka_detail)
        by (rewrite Hkd; reflexivity).
      assert (Hrtext : to_string (obj_get registry "detail")
                       = Ok registry_detail)
        by (rewrite Hrd; reflexivity).
      rewrite (test_connection_callback_ok r message data kafka registry _ _
                 Hr Hok Hdata Hkafka Hregistry
                 (health_row_renders "Kafka Brokers" _ _ _ Hktext)
                 (health_row_renders "Schema Registry" _ _ _ Hrtext)).
      rewrite Hks, Hrs, Hkd. cbn [truthy].
      destruct (String.eqb kafka_detail ""); reflexivity.
    + intros title Htitle.
      rewrite (connection_status_callback_ok r message data kafka registry
                 title Hr Hok Hdata Hkafka Hregistry);
        rewrite Hks, Hrs; [reflexivity | exact Htitle].
  - exact (test_connection_callback_not_ok r message Hr Hok).
Qed.

Lemma refresh_schemas_callback_ok (r message : gmap string JsVal) :
  r !! "message" = Some (JObj message) →
  truthy (obj_get message "ok") = true →
  refresh_schemas_callback __ (JObj r) =
    ([show_alert (__ (JStr "Schema cache refreshed successfully") None)
        "green"], Ok tt).
Proof.
  intros Hr Hok. unfold refresh_schemas_callback.
  rewrite (message_ok_object _ _ Hr), eval_ok_bind, Hok. reflexivity.
Qed.

Lemma refresh_schemas_callback_not_ok (r message : gmap string JsVal) :
  r !! "message" = Some (JObj message) →
  truthy (obj_get message "ok") = false →
  refresh_schemas_callback __ (JObj r) =
    ([msgprint (__ (JStr "Schema Refresh Failed") None)
        (obj_get message "message") "red"], Ok tt).
Proof.
  intros Hr Hok. unfold refresh_schemas_callback.
  rewrite (message_ok_object _ _ Hr), eval_ok_bind, Hok.
  rewrite (message_or_object _ _ _ Hr), eval_ok_bind. reflexivity.
Qed.

Lemma refresh_schemas_callback_no_reply (r : gmap string JsVal) :
  truthy (obj_get r "message") = false →
  refresh_schemas_callback __ (JObj r) =
    ([msgprint (__ (JStr "Schema Refresh Failed") None)
        (__ (JStr "Unknown error") None) "red"], Ok tt).
Proof.
  intros Hr. unfold refresh_schemas_callback.
  rewrite (message_ok_absent _ Hr), eval_ok_bind, Hr.
  rewrite (message_or_absent _ _ Hr), eval_ok_bind. reflexivity.
Qed.

(** Whatever [r.message] is, the success alert is only raised for a reply
    object whose [ok] is truthy. *)
Lemma refresh_schemas_alert_only_if_ok (r : gmap string JsVal) message indicator :
  show_alert message indicator ∈ actions (refresh_schemas_callback __ (JObj r)) →
  ∃ reply, r !! "message" = Some (JObj reply)
           ∧ truthy (obj_get reply "ok") = true.
Proof.
  intros Hin.
  assert (Hnone :
            message_ok (JObj r) = Ok JUndefined →
            message_or (JObj r) (__ (JStr "Unknown error") None) = Ok JUndefined
            → False).
  { intros Hok Hor. unfold refresh_schemas_callback in Hin.
    rewrite Hok, eval_ok_bind in Hin. cbn [truthy] in Hin.
    rewrite Hor, eval_ok_bind in Hin.
    apply list_elem_of_singleton in Hin. discriminate. }
  destruct (obj_get r "message") as [| | b | n | | t | items | reply | name]
    eqn:Hm.
  1, 2, 5: (rewrite (refresh_schemas_callback_no_reply r) in Hin
              by (rewrite Hm; reflexivity);
            apply list_elem_of_singleton in Hin; discriminate).
  - destruct b.
    + exfalso. apply Hnone;
        unfold message_ok, message_or, path;
        rewrite !prop_object, Hm; reflexivity.
    + rewrite (refresh_schemas_callback_no_reply r) in Hin
        by (rewrite Hm; reflexivity).
      apply list_elem_of_singleton in Hin. discriminate.
  - destruct (decide (n = 0%Z)) as [-> | Hn].
    + rewrite (refresh_schemas_callback_no_reply r) in Hin
        by (rewrite Hm; reflexivity).
      apply list_elem_of_singleton in Hin. discriminate.
    + exfalso. apply Hnone;
        unfold message_ok, message_or, path, js_and;
        rewrite !prop_object, Hm; cbn [mbind Outcome_bind truthy];
        apply Z.eqb_neq in Hn; rewrite Hn; reflexivity.
  - destruct (String.eqb t "") eqn:Ht.
    + rewrite (refresh_schemas_callback_no_reply r) in Hin
        by (rewrite Hm; cbn [truthy]; rewrite Ht; reflexivity).
      apply list_elem_of_singleton in Hin. discriminate.
    + exfalso. apply Hnone;
        unfold message_ok, message_or, path, js_and;
        rewrite !prop_object, Hm; cbn [mbind Outcome_bind truthy];
        rewrite Ht; reflexivity.
  - exfalso. apply Hnone;
      unfold message_ok, message_or, path;
      rewrite !prop_object, Hm; reflexivity.
  - assert (Hr : r !! "message" = Some (JObj reply)).
    { unfold obj_get in Hm. destruct (r !! "message") as [v |];
        [congruence | discriminate]. }
    exists reply. split; [exact Hr |].
    destruct (truthy (obj_get reply "ok")) eqn:Hok; [reflexivity |].
    rewrite (refresh_schemas_callback_not_ok r reply Hr Hok) in Hin.
    apply list_elem_of_singleton in Hin. discriminate.
  - assert (Hout : message_ok (JObj r) = Unmodelled)
      by (unfold message_ok, path; rewrite !prop_object, Hm; reflexivity).
    unfold refresh_schemas_callback in Hin. rewrite Hout in Hin.
    inversion Hin.
Qed.

(** C8, as the script has it. The success alert is raised exactly when the
    reply is an object whose [ok] is truthy. A reply object that is not ok
    has its [message] field shown as the reason, whatever that field holds,
    [undefined] included; "Unknown error" is shown only when the call
    brought no reply at all ([r.message] falsy). *)
Theorem refresh_schemas_reports (r : gmap string JsVal) :
  ((∃ message indicator,
       show_alert message indicator
         ∈ actions (refresh_schemas_callback __ (JObj r)))
   ↔ ∃ reply, r !! "message" = Some (JObj reply)
              ∧ truthy (obj_get reply "ok") = true)
  ∧ (∀ reply, r !! "message" = Some (JObj reply) →
       truthy (obj_get reply "ok") = true →
       refresh_schemas_callback __ (JObj r) =
         ([show_alert (__ (JStr "Schema cache refreshed successfully") None)
             "green"], Ok tt))
  ∧ (∀ reply, r !! "message" = Some (JObj reply) →
       truthy (obj_get reply "ok") = false →
       refresh_schemas_callback __ (JObj r) =
         ([msgprint (__ (JStr "Schema Refresh Failed") None)
             (obj_get reply "message") "red"], Ok tt))
  ∧ (truthy (obj_get r "message") = false →
       refresh_schemas_callback __ (JObj r) =
         ([msgprint (__ (JStr "Schema Refresh Failed") None)
             (__ (JStr "Unknown error") None) "red"], Ok tt)).
Proof.
  split; [| split; [| split]].
  - split.
    + intros (message & indicator & Hin).
      exact (refresh_schemas_alert_only_if_ok r message indicator Hin).
    + intros (reply & Hr & Hok).
      rewrite (refresh_schemas_callback_ok r reply Hr Hok).
      eexists _, _. apply list_elem_of_singleton. reflexivity.
  - exact (refresh_schemas_callback_ok r).
  - exact (refresh_schemas_callback_not_ok r).
  - exact (refresh_schemas_callback_no_reply r).
Qed.

End Health.

(* ===================================================================== *)
(** * The statements at concrete documents and replies *)
(* ===================================================================== *)

(** The scenario of section 8 under an envelope with [ok: false]: both
    the dialog and the banner show one message, the envelope's (absent)
    [message], and none of the two subsystems. *)
Lemma partial_failure_under_ok_false_is_one_message :
  ConnectSettings.test_connection_callback untranslated
      (partial_failure_reply false)
    = ([msgprint (JStr "Connection Test Failed") JUndefined "red"], Ok tt)
  ∧ ConnectSettings.connection_status_callback untranslated
        (partial_failure_reply false)
      = ([banner_html
            (ConnectSettings.banner_disconnected "Disconnected" "undefined")],
         Ok tt)
  ∧ ¬ (∃ title kafka_row registry_row indicator,
         ConnectSettings.test_connection_callback untranslated
             (partial_failure_reply false)
           = ([msgprint title
                 (JStr (q "<div class='connect-health-result'>"
                        ++ kafka_row ++ registry_row ++ "</div>"))
                 indicator], Ok tt)).
Proof.
  assert (H : ConnectSettings.test_connection_callback untranslated
                (partial_failure_reply false)
              = ([msgprint (JStr "Connection Test Failed") JUndefined "red"],
                 Ok tt)) by (vm_compute; reflexivity).
  split; [exact H |]. split; [vm_compute; reflexivity |].
  intros (title & kafka_row & registry_row & indicator & Hrows).
  rewrite H in Hrows. discriminate Hrows.
Qed.

(** The same scenario under an envelope with [ok: true]. *)
Lemma partial_failure_shown_when_reply_ok_witness :
  ConnectSettings.test_connection_callback untranslated
      (partial_failure_reply true)
    = ([msgprint (JStr "Connection Issues")
          (JStr (q "<div class='connect-health-result'>"
                 ++ health_row_markup "Kafka Brokers" false "broker unreachable"
                 ++ health_row_markup "Schema Registry" true "reachable"
                 ++ "</div>"))
          "red"], Ok tt)
  ∧ ConnectSettings.connection_status_callback untranslated
        (partial_failure_reply true)
      = ([banner_html (kafka_failed_banner_markup "Connection Issues")], Ok tt).
Proof.
  pose (kafka := list_to_map [ ("status", JStr "error");
                               ("detail", JStr "broker unreachable") ]
                 : gmap string JsVal).
  pose (registry := list_to_map [ ("status", JStr "ok");
                                  ("detail", JStr "reachable") ]
                    : gmap string JsVal).
  pose (data := list_to_map [ ("kafka", JObj kafka);
                              ("schema_registry", JObj registry) ]
                : gmap string JsVal).
  pose (message := list_to_map [("ok", JBool true); ("data", JObj data)]
                   : gmap string JsVal).
  pose (r := list_to_map [("message", JObj message)] : gmap string JsVal).
  destruct (partial_failure_shown_when_reply_ok untranslated
              r message data kafka registry "broker unreachable" "reachable")
    as [Hok _]; try (vm_compute; reflexivity).
  destruct Hok as [Hdialog Hbanner]; [vm_compute; reflexivity |].
  split; [exact Hdialog |].
  apply Hbanner. vm_compute. reflexivity.
Defined.

(** A failed entry of the producer path with its source and rule. *)
Lemma retry_offered_and_reproduces_witness :
  ∃ label click group,
    add_custom_button label click group
      ∈ actions
          (ConnectMessageLog._add_retry_button untranslated
             (form_of [ ("status", JStr "Failed");
                        ("direction", JStr "Produced");
                        ("source_doctype", JStr "Loan");
                        ("source_docname", JStr "LN-0001");
                        ("rule_name", JStr "loan.create") ])).
Proof.
  apply (proj1 (retry_offered_and_reproduces untranslated _)).
  repeat split; vm_compute; reflexivity.
Defined.

(** A day with five messages sent, one failed and two dead-lettered. *)
Lemma stats_totals_are_sums_witness :
  ConnectSettings.stats_callback untranslated
      (object
         [ ("message",
             object
               [ ("ok", JBool true);
                 ("data",
                   object
                     [ ("stats",
                         JArr
                           [ object [ ("direction", JStr "Produced");
                                      ("status", JStr "Sent");
                                      ("count", JNum 5) ];
                             object [ ("direction", JStr "Consumed");
                                      ("status", JStr "Dead Letter");
                                      ("count", JNum 2) ];
                             object [ ("direction", JStr "Produced");
                                      ("status", JStr "Failed");
                                      ("count", JNum 1) ] ]) ]) ]) ])
    = ([ add_indicator (JStr "Produced (24h): 6") "blue";
         add_indicator (JStr "Consumed (24h): 2") "green";
         add_indicator (JStr "Failed (24h): 3") "red" ], Ok tt).
Proof.
  pose (stats := [ {| stat_direction := "Produced"; stat_status := "Sent";
                      stat_count := 5 |};
                   {| stat_direction := "Consumed";
                      stat_status := "Dead Letter"; stat_count := 2 |};
                   {| stat_direction := "Produced"; stat_status := "Failed";
                      stat_count := 1 |} ]).
  pose (data := list_to_map [("stats", JArr (stat_entry <$> stats))]
                : gmap string JsVal).
  pose (message := list_to_map [("ok", JBool true); ("data", JObj data)]
                   : gmap string JsVal).
  pose (r := list_to_map [("message", JObj message)] : gmap string JsVal).
  apply (stats_totals_are_sums untranslated r message data stats).
  - vm_compute. reflexivity.
  - vm_compute. reflexivity.
  - vm_compute. reflexivity.
  - vm_compute. reflexivity.
  - discriminate.
  - repeat (constructor; [cbn; lia |]). constructor.
  - vm_compute. discriminate.
Defined.

(** A successful reply carrying the key ["loan.create:Loan:LN-0001"]. *)
Lemma success_alert_shows_idempotency_key_witness :
  let r := object
             [ ("message",
                 object
                   [ ("ok", JBool true);
                     ("data",
                       object [ ("idempotency_key",
                                  JStr "loan.create:Loan:LN-0001") ]) ]) ] in
  ConnectEmissionRule.manual_push_callback untranslated r
    = ([show_alert (JStr "Message produced! Key: loan.create:Loan:LN-0001")
          "green"], Ok tt)
  ∧ ConnectMessageLog.retry_callback untranslated r
      = ([show_alert
            (JStr "Message re-produced with key: loan.create:Loan:LN-0001")
            "green";
          reload_doc], Ok tt).
Proof.
  pose (data := list_to_map [("idempotency_key", JStr "loan.create:Loan:LN-0001")]
                : gmap string JsVal).
  pose (message := list_to_map [("ok", JBool true); ("data", JObj data)]
                   : gmap string JsVal).
  pose (r := list_to_map [("message", JObj message)] : gmap string JsVal).
  apply (success_alert_shows_idempotency_key untranslated r message data
           (JStr "loan.create:Loan:LN-0001"));
    vm_compute; reflexivity.
Defined.

(** Both subsystems in error, the registry without a detail: both rows are
    there all the same, each with its cross. *)
Lemma both_health_rows_rendered_witness :
  ConnectSettings.test_connection_callback untranslated
      (object
         [ ("message",
             object
               [ ("ok", JBool true);
                 ("data",
                   object
                     [ ("kafka",
                         object [ ("status", JStr "error");
                                  ("detail", JStr "broker unreachable") ]);
                       ("schema_registry",
                         object [("status", JStr "error")]) ]) ]) ])
    = ([msgprint (JStr "Connection Issues")
          (JStr (q "<div class='connect-health-result'>"
                 ++ health_row_markup "Kafka Brokers" false "broker unreachable"
                 ++ health_row_markup "Schema Registry" false "Connection failed"
                 ++ "</div>"))
          "red"], Ok tt).
Proof.
  pose (kafka := list_to_map [ ("status", JStr "error");
                               ("detail", JStr "broker unreachable") ]
                 : gmap string JsVal).
  pose (registry := list_to_map [("status", JStr "error")]
                    : gmap string JsVal).
  pose (data := list_to_map [ ("kafka", JObj kafka);
                              ("schema_registry", JObj registry) ]
                : gmap string JsVal).
  pose (message := list_to_map [("ok", JBool true); ("data", JObj data)]
                   : gmap string JsVal).
  pose (r := list_to_map [("message", JObj message)] : gmap string JsVal).
  etransitivity.
  - apply (both_health_rows_rendered untranslated r message data kafka
             registry "broker unreachable" "undefined");
      vm_compute; reflexivity.
  - vm_compute. reflexivity.
Defined.

(** What the hypotheses on the reply's shape keep out: an ok reply whose
    data names no subsystem makes the callback throw before it shows
    anything. *)
Lemma test_connection_reply_without_subsystems_throws :
  ConnectSettings.test_connection_callback untranslated
      (object [("message", object [("ok", JBool true); ("data", object [])])])
    = ([], TypeError).
Proof. vm_compute. reflexivity. Qed.

(** A reply that is not ok and has no [message] field: the dialog shows
    [undefined], not "Unknown error". *)
Lemma refresh_failure_without_message_shows_undefined :
  let r := object [("message", object [("ok", JBool false)])] in
  ConnectSettings.refresh_schemas_callback untranslated r
    = ([msgprint (JStr "Schema Refresh Failed") JUndefined "red"], Ok tt)
  ∧ ConnectSettings.refresh_schemas_callback untranslated r
      ≠ ([msgprint (JStr "Schema Refresh Failed") (JStr "Unknown error") "red"],
         Ok tt).
Proof.
  cbv zeta.
  assert (H : ConnectSettings.refresh_schemas_callback untranslated
                (object [("message", object [("ok", JBool false)])])
              = ([msgprint (JStr "Schema Refresh Failed") JUndefined "red"],
                 Ok tt)) by (vm_compute; reflexivity).
  split; [exact H |]. rewrite H. discriminate.
Qed.

(** A reply that is not ok with a reason, and a call without a reply. *)
Lemma refresh_schemas_reports_witness :
  ConnectSettings.refresh_schemas_callback untranslated
      (object [ ("message",
                  object [ ("ok", JBool false);
                           ("message", JStr "registry unreachable") ]) ])
    = ([msgprint (JStr "Schema Refresh Failed") (JStr "registry unreachable")
          "red"], Ok tt)
  ∧ ConnectSettings.refresh_schemas_callback untranslated (object [])
      = ([msgprint (JStr "Schema Refresh Failed") (JStr "Unknown error") "red"],
         Ok tt).
Proof.
  split.
  - etransitivity;
      [ apply (proj1 (proj2 (proj2
                 (refresh_schemas_reports untranslated
                    (list_to_map
                       [ ("message",
                           object [ ("ok", JBool false);
                                    ("message", JStr "registry unreachable") ]) ]))))
                 (list_to_map [ ("ok", JBool false);
                                ("message", JStr "registry unreachable") ]))
      | ]; vm_compute; reflexivity.
  - apply (proj2 (proj2 (proj2
             (refresh_schemas_reports untranslated (list_to_map []))))).
    vm_compute. reflexivity.
Defined.

(** A saved, enabled rule. *)
Lemma manual_push_targets_rule_doctype_witness :
  ∃ label click group,
    add_custom_button label click group
      ∈ actions
          (ConnectEmissionRule.refresh untranslated
             (form_of [ ("name", JStr "loan.create");
                        ("rule_name", JStr "loan.create");
                        ("enabled", JNum 1);
                        ("source_doctype", JStr "Loan") ])).
Proof.
  apply (proj1 (manual_push_targets_rule_doctype untranslated _)).
  split; vm_compute; reflexivity.
Defined.

(* ===================================================================== *)
(** * Further properties of the scripts *)
(* ===================================================================== *)

(** ** Sequencing and the reply envelope *)

Section Sequencing.

Lemma outcome_bind_ok {A} (m : Outcome A) : (m ≫= λ a, Ok a) = m.
Proof. now destruct m. Qed.

(** A property that holds an array or an object is an own property of an
    object: no primitive has one, and nothing inherited is one. *)
Lemma prop_structure v k w :
  prop v k = Ok w →
  (∃ items, w = JArr items) ∨ (∃ o, w = JObj o) →
  ∃ o, v = JObj o ∧ o !! k = Some w.
Proof.
  intros Hprop Hw.
  destruct v as [| | b | n | | t | items | o | name]; cbn [prop] in Hprop;
    try discriminate;
    try (repeat case_match; simplify_eq;
         destruct Hw as [[? ?] | [? ?]]; discriminate).
  exists o. split; [reflexivity |].
  injection Hprop as Hget. unfold obj_get, inherited in Hget.
  destruct (o !! k) as [own |]; [congruence |].
  case_match; subst w; destruct Hw as [[? ?] | [? ?]]; discriminate.
Qed.

(** What [r.message && r.message.ok] can be: the [ok] of a reply object; a
    falsy value when there is no reply object; or outside the model, when
    [r.message] is a built-in. *)
Lemma message_ok_cases (r : gmap string JsVal) :
  (∃ reply, r !! "message" = Some (JObj reply)
            ∧ message_ok (JObj r) = Ok (obj_get reply "ok"))
  ∨ (∃ v, message_ok (JObj r) = Ok v ∧ truthy v = false
          ∧ ∀ reply, r !! "message" ≠ Some (JObj reply))
  ∨ (message_ok (JObj r) = Unmodelled).
Proof.
  destruct (obj_get r "message") as [| | b | n | | t | items | reply | name]
    eqn:Hm.
  8: { left. exists reply.
       assert (Hr : r !! "message" = Some (JObj reply)).
       { unfold obj_get in Hm. destruct (r !! "message"); [congruence |].
         discriminate. }
       split; [exact Hr | exact (message_ok_object r reply Hr)]. }
  8: { right. right. unfold message_ok, path. rewrite !prop_object, Hm.
       reflexivity. }
  all: right; left.
  all: assert (Hnone : ∀ reply, r !! "message" ≠ Some (JObj reply))
         by (intros reply Hr; rewrite (obj_get_own _ _ _ Hr) in Hm;
             discriminate).
  all: unfold message_ok, path, js_and; rewrite !prop_object, Hm;
       cbn [mbind Outcome_bind truthy].
  1, 2, 5: eexists; split; [reflexivity |]; split; [reflexivity | exact Hnone].
  - destruct b; eexists; (split; [reflexivity |]);
      (split; [reflexivity | exact Hnone]).
  - destruct (n =? 0)%Z eqn:Hn; cbn [negb]; eexists; (split; [reflexivity |]);
      (split; [| exact Hnone]); cbn [truthy]; [now rewrite Hn | reflexivity].
  - destruct (String.eqb t "") eqn:Ht; cbn [negb]; eexists;
      (split; [reflexivity |]); (split; [| exact Hnone]); cbn [truthy];
      [now rewrite Ht | reflexivity].
  - eexists. split; [reflexivity |]. split; [reflexivity | exact Hnone].
Qed.

(** Reading [r.message.data.k] below a reply object. *)
Lemma path_reply_data (r reply : gmap string JsVal) k :
  r !! "message" = Some (JObj reply) →
  path (JObj r) ["message"; "data"; k] = prop (obj_get reply "data") k.
Proof.
  intros Hr. unfold path. rewrite prop_object, (obj_get_own _ _ _ Hr).
  cbn [mbind Outcome_bind]. rewrite prop_object. cbn [mbind Outcome_bind].
  apply outcome_bind_ok.
Qed.

End Sequencing.

(** ** The 24h statistics, beyond well-formed rows *)

Section StatsEdges.
Context (__ : Translation).

Import ConnectSettings.

(** What [stats] must be for the length test to pass and the loop to run. *)
Lemma stats_callback_needs_rows (r : JsVal) ok stats :
  message_ok r = Ok ok → truthy ok = true →
  (s ← path r ["message"; "data"; "stats"]; Ok (js_or s (JArr []))) = Ok stats →
  actions (stats_callback __ r) ≠ [] →
  ∃ row rows, stats = JArr (row :: rows).
Proof.
  intros Hok Ht Hstats Hshown. unfold stats_callback in Hshown.
  rewrite Hok, eval_ok_bind, Ht, Hstats, eval_ok_bind in Hshown.
  destruct stats as [| | b | n | | t | rows | o | name];
    try (exfalso; apply Hshown; reflexivity).
  - exfalso. apply Hshown.
    change (prop (JStr t) "length") with (Ok (JNum (Z.of_nat (utf16_length t)))).
    rewrite eval_ok_bind.
    destruct (negb (truthy (JNum (Z.of_nat (utf16_length t))))); reflexivity.
  - destruct rows as [| row rows]; [exfalso; apply Hshown; reflexivity |].
    eauto.
  - exfalso. apply Hshown. rewrite prop_object, eval_ok_bind.
    destruct (negb (truthy (obj_get o "length"))); reflexivity.
Qed.

(** X2. The statistics callback touches the dashboard only for a reply
    object that is ok and whose [data.stats] is a non-empty array: a failed
    call, a missing reply, missing data or an empty list all leave the
    dashboard without indicators, and without an error message. *)
Theorem stats_shown_only_for_rows (r : gmap string JsVal) :
  actions (stats_callback __ (JObj r)) ≠ [] →
  ∃ reply data row rows,
    r !! "message" = Some (JObj reply)
    ∧ truthy (obj_get reply "ok") = true
    ∧ reply !! "data" = Some (JObj data)
    ∧ data !! "stats" = Some (JArr (row :: rows)).
Proof.
  intros Hshown.
  destruct (message_ok_cases r) as
    [(reply & Hr & Hok) | [(v & Hv & Hfalsy & _) | Hout]].
  - destruct (truthy (obj_get reply "ok")) eqn:Ht.
    + destruct (prop (obj_get reply "data") "stats") as [s | |] eqn:Hs.
      * assert (Hstats :
                  (s ← path (JObj r) ["message"; "data"; "stats"];
                   Ok (js_or s (JArr []))) = Ok (js_or s (JArr [])))
          by (rewrite (path_reply_data r reply _ Hr), Hs; reflexivity).
        destruct (stats_callback_needs_rows _ _ _ Hok Ht Hstats Hshown)
          as (row & rows & Hrows).
        assert (Harr : s = JArr (row :: rows)).
        { unfold js_or in Hrows. destruct (truthy s); congruence. }
        subst s.
        destruct (prop_structure _ _ _ Hs) as (data & Hdata & Hown);
          [left; eauto |].
        destruct (prop_structure (JObj reply) "data" (JObj data)) as (o & Ho & Hd);
          [rewrite prop_object, Hdata; reflexivity | right; eauto |].
        injection Ho as <-.
        exists reply, data, row, rows. auto.
      * exfalso. apply Hshown. unfold stats_callback.
        rewrite Hok, eval_ok_bind, Ht, (path_reply_data r reply _ Hr), Hs.
        reflexivity.
      * exfalso. apply Hshown. unfold stats_callback.
        rewrite Hok, eval_ok_bind, Ht, (path_reply_data r reply _ Hr), Hs.
        reflexivity.
    + exfalso. apply Hshown. unfold stats_callback.
      rewrite Hok, eval_ok_bind, Ht. reflexivity.
  - exfalso. apply Hshown. unfold stats_callback.
    rewrite Hv, eval_ok_bind, Hfalsy. reflexivity.
  - exfalso. apply Hshown. unfold stats_callback. rewrite Hout. reflexivity.
Qed.

End StatsEdges.

Section StatsTotals.
Context (__ : Translation).

Import ConnectSettings.

Lemma produced_not_consumed s : is_produced s = true → is_consumed s = false.
Proof.
  unfold is_produced, is_consumed. intros H. apply String.eqb_eq in H.
  now rewrite H.
Qed.

(** No row is counted both as produced and as consumed. *)
Lemma sum_by_direction stats :
  Forall (λ s, 0 ≤ stat_count s)%Z stats →
  (sum_counts (List.filter is_produced stats)
   + sum_counts (List.filter is_consumed stats) ≤ sum_counts stats)%Z
  ∧ (0 ≤ sum_counts (List.filter is_failed stats) ≤ sum_counts stats)%Z
  ∧ (Forall (λ s, is_produced s || is_consumed s = true) stats →
     (sum_counts (List.filter is_produced stats)
      + sum_counts (List.filter is_consumed stats) = sum_counts stats)%Z).
Proof.
  induction 1 as [| s stats Hs _ (IHle & IHf & IHeq)].
  - cbn. repeat split; lia.
  - rewrite !sum_counts_filter_cons, sum_counts_cons. unfold add_if.
    pose proof (produced_not_consumed s) as Hex.
    split; [| split].
    + destruct (is_produced s); [rewrite Hex by reflexivity |];
        destruct (is_consumed s); lia.
    + destruct (is_failed s); lia.
    + intros Hall. apply Forall_cons in Hall as [Hdir Hall].
      specialize (IHeq Hall).
      destruct (is_produced s); [rewrite Hex by reflexivity; lia |].
      destruct (is_consumed s); [lia | discriminate].
Qed.

(** X3. Over well-formed rows the loop never counts a row twice between
    Produced and Consumed, and Failed is taken from the same rows again: the
    two direction totals add up to at most the total of all counts (exactly
    that total when every row is Produced or Consumed), and the Failed total
    never exceeds the total of all counts. *)
Theorem direction_totals_partition_the_counts (stats : list Stat) :
  Forall (λ s, 0 ≤ stat_count s)%Z stats →
  (sum_counts stats ≤ safe_integer)%Z →
  ∃ produced consumed failed,
    stats_forEach (JNum 0, JNum 0, JNum 0) (stat_entry <$> stats)
      = Ok (JNum produced, JNum consumed, JNum failed)
    ∧ (0 ≤ produced)%Z ∧ (0 ≤ consumed)%Z
    ∧ (produced + consumed ≤ sum_counts stats)%Z
    ∧ (0 ≤ failed ≤ sum_counts stats)%Z
    ∧ (Forall (λ s, is_produced s || is_consumed s = true) stats →
       (produced + consumed = sum_counts stats)%Z
       ∧ (failed ≤ produced + consumed)%Z).
Proof.
  intros Hall Hsum.
  destruct (sum_by_direction stats Hall) as (Hle & Hf & Heq).
  pose proof (sum_counts_nonneg _ Hall) as Hnonneg.
  assert (Hp : (0 ≤ sum_counts (List.filter is_produced stats))%Z).
  { apply sum_counts_nonneg. apply Forall_forall. intros s Hin.
    apply list_elem_of_In, filter_In in Hin as [Hin _].
    rewrite Forall_forall in Hall. apply Hall, list_elem_of_In, Hin. }
  assert (Hc : (0 ≤ sum_counts (List.filter is_consumed stats))%Z).
  { apply sum_counts_nonneg. apply Forall_forall. intros s Hin.
    apply list_elem_of_In, filter_In in Hin as [Hin _].
    rewrite Forall_forall in Hall. apply Hall, list_elem_of_In, Hin. }
  eexists _, _, _. split.
  - rewrite (stats_forEach_sums stats 0 0 0 Hall) by
      (try reflexivity; rewrite ?Z.add_0_l; try assumption; lia).
    rewrite !Z.add_0_l. reflexivity.
  - split; [exact Hp |]. split; [exact Hc |]. split; [exact Hle |].
    split; [exact Hf |]. intros Hdir. specialize (Heq Hdir). lia.
Qed.

(** The loop over two lists in a row. *)
Lemma stats_forEach_app rows1 rows2 : ∀ totals,
  stats_forEach totals (app rows1 rows2) =
    totals' ← stats_forEach totals rows1; stats_forEach totals' rows2.
Proof.
  induction rows1 as [| s rows1 IH]; intros totals; [reflexivity |].
  cbn [app stats_forEach].
  destruct (stats_entry totals s) as [totals' | |]; [| reflexivity ..].
  cbn [mbind Outcome_bind]. apply IH.
Qed.





(** X1. A null row in the statistics list makes the callback throw a
    TypeError at that row, before any indicator is added: the well-formed
    rows summed before it are not shown, and the rows after it are never
    read, whatever they hold. *)
Theorem null_row_shows_no_indicator
    (r message data : gmap string JsVal)
    (before : list Stat) (after : list JsVal) :
  r !! "message" = Some (JObj message) →
  truthy (obj_get message "ok") = true →
  message !! "data" = Some (JObj data) →
  data !! "stats" =
    Some (JArr (app (stat_entry <$> before) (JNull :: after))) →
  Forall (λ s, 0 ≤ stat_count s)%Z before →
  (sum_counts before ≤ safe_integer)%Z →
  stats_callback __ (JObj r) = ([], TypeError).
Proof.
  intros Hr Hok Hdata Hstats Hbefore Hsum.
  unfold stats_callback.
  rewrite (message_ok_object _ _ Hr), eval_ok_bind, Hok.
  rewrite (path_message_data _ _ _ _ Hr Hdata), (obj_get_own _ _ _ Hstats).
  cbn [mbind Outcome_bind].
  rewrite eval_ok_bind, truthy_js_or by reflexivity.
  rewrite prop_array_length, eval_ok_bind.
  assert (Hlen : truthy (JNum (Z.of_nat (length
                   (app (stat_entry <$> before) (JNull :: after))))) = true).
  { rewrite length_app. cbn [truthy length].
    apply negb_true_iff, Z.eqb_neq. lia. }
  rewrite Hlen. cbn [negb].
  rewrite stats_forEach_app.
  rewrite (stats_forEach_sums before 0 0 0 Hbefore) by
    (try reflexivity; rewrite ?Z.add_0_l; lia).
  reflexivity.
Qed.


End StatsTotals.

(** ** What a refresh asks of the server, and the status banner *)

Section Refresh.
Context (__ : Translation).
Context (slug : JsVal → JsVal).

Lemma actions_bind {A B} (m : UI A) (f : A → UI B) :
  actions (m ≫= f) =
    app (actions m)
        (match m.2 with
         | Ok a => actions (f a)
         | _ => []
         end).
Proof.
  destruct m as [done [a | |]]; unfold actions, mbind, UI_bind; cbn [fst snd].
  - now destruct (f a).
  - now rewrite app_nil_r.
  - now rewrite app_nil_r.
Qed.

Lemma called_methods_app acts1 acts2 :
  called_methods (app acts1 acts2) =
    app (called_methods acts1) (called_methods acts2).
Proof. apply omap_app. Qed.

Lemma called_methods_bind {A B} (m : UI A) (f : A → UI B) :
  called_methods (actions m) = [] →
  (∀ a, called_methods (actions (f a)) = []) →
  called_methods (actions (m ≫= f)) = [].
Proof.
  intros Hm Hf. rewrite actions_bind, called_methods_app, Hm.
  destruct (m.2); [apply Hf | reflexivity ..].
Qed.

Lemma set_status_indicator_calls_nothing (frm : Form) :
  called_methods (actions (ConnectMessageLog._set_status_indicator __ frm)) = [].
Proof.
  unfold ConnectMessageLog._set_status_indicator.
  destruct (to_string (field frm "status")); reflexivity.
Qed.

Lemma add_retry_button_calls_nothing (frm : Form) :
  called_methods (actions (ConnectMessageLog._add_retry_button __ frm)) = [].
Proof.
  unfold ConnectMessageLog._add_retry_button.
  repeat case_match; reflexivity.
Qed.

Lemma add_source_link_calls_nothing (frm : Form) :
  called_methods (actions (ConnectMessageLog._add_source_link __ slug frm)) = [].
Proof.
  unfold ConnectMessageLog._add_source_link.
  case_match; [| reflexivity].
  destruct (to_string (slug (field frm "source_doctype"))); [| reflexivity ..].
  rewrite eval_ok_bind.
  destruct (to_string (field frm "source_docname")); [| reflexivity ..].
  rewrite eval_ok_bind.
  destruct (to_string (field frm "source_doctype")); reflexivity.
Qed.

(** X5. What a refresh asks of the server. The Message Log form asks
    nothing, whatever the document holds: a produce is only ever called from
    a click. The Connect Settings form asks nothing for an unsaved document;
    for a saved one it checks the connection (if the form has the [enabled]
    control to put the banner at) and fetches the statistics, without
    freezing the screen. The Emission Rule form asks for the two message
    counts of a saved rule, again without freezing, and for nothing
    otherwise. *)
Theorem refresh_server_calls (frm : Form) :
  called_methods (actions (ConnectMessageLog.refresh __ slug frm)) = []
  ∧ called_methods (actions (ConnectSettings.refresh __ frm)) =
      (if saved frm
       then app (if fields_dict_enabled frm
                 then ["connect.api.test_connection"] else [])
                ["connect.api.get_kafka_stats"]
       else [])
  ∧ freezing_calls (actions (ConnectSettings.refresh __ frm)) = []
  ∧ called_methods (actions (ConnectEmissionRule.refresh __ frm)) =
      (if saved frm
       then ["frappe.client.get_count"; "frappe.client.get_count"]
       else [])
  ∧ freezing_calls (actions (ConnectEmissionRule.refresh __ frm)) = [].
Proof.
  split; [| split; [| split; [| split]]].
  - unfold ConnectMessageLog.refresh.
    apply called_methods_bind;
      [apply set_status_indicator_calls_nothing | intros _].
    apply called_methods_bind;
      [apply add_retry_button_calls_nothing | intros _].
    apply add_source_link_calls_nothing.
  - unfold ConnectSettings.refresh, ConnectSettings._add_connection_status_section,
      ConnectSettings._add_stats_section, saved.
    destruct (truthy (field frm "__islocal"));
      destruct (fields_dict_enabled frm); reflexivity.
  - unfold ConnectSettings.refresh, ConnectSettings._add_connection_status_section,
      ConnectSettings._add_stats_section.
    destruct (truthy (field frm "__islocal"));
      destruct (fields_dict_enabled frm); reflexivity.
  - unfold ConnectEmissionRule.refresh,
      ConnectEmissionRule._add_recent_logs_section, saved.
    destruct (truthy (field frm "__islocal"));
      destruct (truthy (field frm "enabled")); reflexivity.
  - unfold ConnectEmissionRule.refresh,
      ConnectEmissionRule._add_recent_logs_section.
    destruct (truthy (field frm "__islocal"));
      destruct (truthy (field frm "enabled")); reflexivity.
Qed.

(** X6. The status banner does not pile up. After a refresh of a saved
    form that has the [enabled] control there is exactly one banner,
    however many there were; any other refresh leaves the banners alone; so
    refreshing again changes nothing. After a save the connection is
    checked again exactly when a banner is there to show the result. *)
Theorem refresh_keeps_one_banner (frm : Form) :
  let after :=
    banners_after (actions (ConnectSettings.refresh __ frm)) (banners frm) in
  after = (if saved frm && fields_dict_enabled frm then 1%nat else banners frm)
  ∧ banners_after
      (actions (ConnectSettings.refresh __ (with_banners frm after))) after
    = after
  ∧ ∀ n,
      called_methods
        (actions (ConnectSettings.after_save __ (with_banners frm n)))
      = (if (n =? 0)%nat then [] else ["connect.api.test_connection"]).
Proof.
  cbv zeta.
  assert (Hafter : ∀ n,
            banners_after
              (actions (ConnectSettings.refresh __ (with_banners frm n))) n
            = (if saved frm && fields_dict_enabled frm then 1%nat else n)).
  { intros n.
    unfold ConnectSettings.refresh, ConnectSettings._add_connection_status_section,
      ConnectSettings._add_stats_section, saved, field, with_banners.
    cbn [doc fields_dict_enabled].
    destruct (truthy (obj_get (doc frm) "__islocal"));
      destruct (fields_dict_enabled frm); reflexivity. }
  assert (Hfrm : with_banners frm (banners frm) = frm) by now destruct frm.
  split; [| split].
  - rewrite <- Hfrm at 1. apply Hafter.
  - rewrite Hafter. pose proof (Hafter (banners frm)) as H0.
    rewrite Hfrm in H0. rewrite H0.
    destruct (saved frm && fields_dict_enabled frm); reflexivity.
  - intros n. unfold ConnectSettings.after_save,
      ConnectSettings._update_connection_status, with_banners.
    cbn [banners default]. destruct (n =? 0)%nat; reflexivity.
Qed.

End Refresh.

(** ** The verdict on the connection *)

Section Verdict.
Context (__ : Translation).

Import ConnectSettings.



End Verdict.

(** ** When a produce fails *)

Section ProduceFails.
Context (__ : Translation).

Import ConnectMessageLog ConnectEmissionRule.

Lemma retry_callback_ok (r reply : gmap string JsVal) :
  r !! "message" = Some (JObj reply) →
  truthy (obj_get reply "ok") = true →
  retry_callback __ (JObj r) =
    (key ← eval (prop (obj_get reply "data") "idempotency_key");
     emit (show_alert
             (__ (JStr "Message re-produced with key: {0}") (Some [key]))
             "green");;
     emit reload_doc).
Proof.
  intros Hr Hok. unfold retry_callback.
  rewrite (message_ok_object _ _ Hr), eval_ok_bind, Hok.
  now rewrite (path_reply_data _ _ _ Hr).
Qed.

Lemma retry_callback_not_ok (r reply : gmap string JsVal) :
  r !! "message" = Some (JObj reply) →
  truthy (obj_get reply "ok") = false →
  retry_callback __ (JObj r) =
    ([msgprint (__ (JStr "Production Failed") None)
        (obj_get reply "message") "red"], Ok tt).
Proof.
  intros Hr Hok. unfold retry_callback.
  rewrite (message_ok_object _ _ Hr), eval_ok_bind, Hok.
  rewrite (message_or_object _ _ _ Hr), eval_ok_bind. reflexivity.
Qed.

Lemma manual_push_callback_ok (r reply : gmap string JsVal) :
  r !! "message" = Some (JObj reply) →
  truthy (obj_get reply "ok") = true →
  manual_push_callback __ (JObj r) =
    (key ← eval (prop (obj_get reply "data") "idempotency_key");
     emit (show_alert (__ (JStr "Message produced! Key: {0}") (Some [key]))
             "green")).
Proof.
  intros Hr Hok. unfold manual_push_callback.
  rewrite (message_ok_object _ _ Hr), eval_ok_bind, Hok.
  now rewrite (path_reply_data _ _ _ Hr).
Qed.

Lemma manual_push_callback_not_ok (r reply : gmap string JsVal) :
  r !! "message" = Some (JObj reply) →
  truthy (obj_get reply "ok") = false →
  manual_push_callback __ (JObj r) =
    ([msgprint (__ (JStr "Push Failed") None)
        (obj_get reply "message") "red"], Ok tt).
Proof.
  intros Hr Hok. unfold manual_push_callback.
  rewrite (message_ok_object _ _ Hr), eval_ok_bind, Hok.
  rewrite (message_or_object _ _ _ Hr), eval_ok_bind. reflexivity.
Qed.

(** X9. After a retry the form of the failed entry is reloaded only after
    a success: exactly when the reply is an object that is ok and whose data
    can be read for the key. A reply that is not ok brings up one red
    "Production Failed" dialog with the reply's [message] ("Unknown error"
    when the call brought no reply) and neither alert nor reload; an ok reply
    without data throws before anything is shown. *)
Theorem retry_reloads_only_after_success (r : gmap string JsVal) :
  (reload_doc ∈ actions (retry_callback __ (JObj r))
   ↔ ∃ reply key,
       r !! "message" = Some (JObj reply)
       ∧ truthy (obj_get reply "ok") = true
       ∧ prop (obj_get reply "data") "idempotency_key" = Ok key)
  ∧ (∀ reply, r !! "message" = Some (JObj reply) →
       truthy (obj_get reply "ok") = false →
       retry_callback __ (JObj r) =
         ([msgprint (__ (JStr "Production Failed") None)
             (obj_get reply "message") "red"], Ok tt))
  ∧ (truthy (obj_get r "message") = false →
       retry_callback __ (JObj r) =
         ([msgprint (__ (JStr "Production Failed") None)
             (__ (JStr "Unknown error") None) "red"], Ok tt))
  ∧ (∀ reply, r !! "message" = Some (JObj reply) →
       truthy (obj_get reply "ok") = true →
       obj_get reply "data" = JUndefined ∨ obj_get reply "data" = JNull →
       retry_callback __ (JObj r) = ([], TypeError)).
Proof.
  split; [| split; [| split]].
  - split.
    + intros Hin.
      destruct (message_ok_cases r) as
        [(reply & Hr & _) | [(v & Hv & Hfalsy & _) | Hout]].
      * destruct (truthy (obj_get reply "ok")) eqn:Hok.
        -- rewrite (retry_callback_ok r reply Hr Hok) in Hin.
           destruct (prop (obj_get reply "data") "idempotency_key")
             as [key | |] eqn:Hkey; [eauto | inversion Hin ..].
        -- rewrite (retry_callback_not_ok r reply Hr Hok) in Hin.
           apply list_elem_of_singleton in Hin. discriminate.
      * unfold retry_callback in Hin.
        rewrite Hv, eval_ok_bind, Hfalsy in Hin.
        destruct (message_or (JObj r) (__ (JStr "Unknown error") None));
          [rewrite eval_ok_bind in Hin;
           apply list_elem_of_singleton in Hin; discriminate
          | inversion Hin ..].
      * unfold retry_callback in Hin. rewrite Hout in Hin. inversion Hin.
    + intros (reply & key & Hr & Hok & Hkey).
      rewrite (retry_callback_ok r reply Hr Hok), Hkey, eval_ok_bind.
      apply elem_of_cons. right. apply elem_of_cons. left. reflexivity.
  - exact (retry_callback_not_ok r).
  - intros Hnone. unfold retry_callback.
    rewrite (message_ok_absent _ Hnone), eval_ok_bind, Hnone.
    rewrite (message_or_absent _ _ Hnone), eval_ok_bind. reflexivity.
  - intros reply Hr Hok Hdata.
    rewrite (retry_callback_ok r reply Hr Hok).
    destruct Hdata as [-> | ->]; reflexivity.
Qed.

(** X10. After a manual push the success alert is raised exactly when the
    reply is an object that is ok and whose data can be read for the key. A
    reply that is not ok brings up one red "Push Failed" dialog with the
    reply's [message] ("Unknown error" when the call brought no reply). *)
Theorem manual_push_alerts_only_after_success (r : gmap string JsVal) :
  ((∃ message indicator,
       show_alert message indicator
         ∈ actions (manual_push_callback __ (JObj r)))
   ↔ ∃ reply key,
       r !! "message" = Some (JObj reply)
       ∧ truthy (obj_get reply "ok") = true
       ∧ prop (obj_get reply "data") "idempotency_key" = Ok key)
  ∧ (∀ reply, r !! "message" = Some (JObj reply) →
       truthy (obj_get reply "ok") = false →
       manual_push_callback __ (JObj r) =
         ([msgprint (__ (JStr "Push Failed") None)
             (obj_get reply "message") "red"], Ok tt))
  ∧ (truthy (obj_get r "message") = false →
       manual_push_callback __ (JObj r) =
         ([msgprint (__ (JStr "Push Failed") None)
             (__ (JStr "Unknown error") None) "red"], Ok tt)).
Proof.
  split; [| split].
  - split.
    + intros (message & indicator & Hin).
      destruct (message_ok_cases r) as
        [(reply & Hr & _) | [(v & Hv & Hfalsy & _) | Hout]].
      * destruct (truthy (obj_get reply "ok")) eqn:Hok.
        -- rewrite (manual_push_callback_ok r reply Hr Hok) in Hin.
           destruct (prop (obj_get reply "data") "idempotency_key")
             as [key | |] eqn:Hkey; [eauto | inversion Hin ..].
        -- rewrite (manual_push_callback_not_ok r reply Hr Hok) in Hin.
           apply list_elem_of_singleton in Hin. discriminate.
      * unfold manual_push_callback in Hin.
        rewrite Hv, eval_ok_bind, Hfalsy in Hin.
        destruct (message_or (JObj r) (__ (JStr "Unknown error") None));
          [rewrite eval_ok_bind in Hin;
           apply list_elem_of_singleton in Hin; discriminate
          | inversion Hin ..].
      * unfold manual_push_callback in Hin. rewrite Hout in Hin.
        inversion Hin.
    + intros (reply & key & Hr & Hok & Hkey).
      rewrite (manual_push_callback_ok r reply Hr Hok), Hkey, eval_ok_bind.
      eexists _, _. apply list_elem_of_singleton. reflexivity.
  - exact (manual_push_callback_not_ok r).
  - intros Hnone. unfold manual_push_callback.
    rewrite (message_ok_absent _ Hnone), eval_ok_bind, Hnone.
    rewrite (message_or_absent _ _ Hnone), eval_ok_bind. reflexivity.
Qed.

End ProduceFails.

(** ** Message counts of a rule, and the Message Log form as a whole *)

Section Counts.
Context (__ : Translation).
Context (slug : JsVal → JsVal).

Import ConnectMessageLog ConnectEmissionRule.

(** X11. The two count indicators of a rule skip zero: a count of 0 is
    falsy, so a rule without messages shows no "Total Messages" at all, and
    a count that is shown is positive and blue (the grey of the script is
    never used for a count); "Failed" is shown, in red, under the same
    condition. *)
Theorem count_indicators_skip_zero (r : gmap string JsVal) (n : Z) :
  r !! "message" = Some (JNum n) →
  (0 ≤ n)%Z →
  total_messages_callback __ (JObj r) =
    (if (n =? 0)%Z then ([], Ok tt)
     else ([add_indicator (__ (JStr "Total Messages: {0}") (Some [JNum n]))
              "blue"], Ok tt))
  ∧ failed_messages_callback __ (JObj r) =
      (if (n =? 0)%Z then ([], Ok tt)
       else ([add_indicator (__ (JStr "Failed: {0}") (Some [JNum n])) "red"],
             Ok tt)).
Proof.
  intros Hr Hn.
  unfold total_messages_callback, failed_messages_callback.
  rewrite prop_object, (obj_get_own _ _ _ Hr), !eval_ok_bind.
  cbn [truthy]. destruct (n =? 0)%Z eqn:Hz; cbn [negb]; [split; reflexivity |].
  rewrite js_gt0_num, !eval_ok_bind.
  assert (Hpos : (0 <? n)%Z = true) by (apply Z.ltb_lt; apply Z.eqb_neq in Hz; lia).
  rewrite Hpos. split; reflexivity.
Qed.

(** X13. A retriable entry, as the form shows it after a refresh: the red
    Failed indicator, the Retry Production button and the comment that
    links its source document, in that order and nothing else. The link is
    written out: an anchor to [/app/<slug of the doctype>/<name>] whose text
    is the doctype followed by the name. *)
Theorem retriable_entry_refresh (frm : Form) href docname doctype :
  field frm "status" = JStr "Failed" →
  field frm "direction" = JStr "Produced" →
  truthy (field frm "source_doctype") = true →
  truthy (field frm "source_docname") = true →
  truthy (field frm "rule_name") = true →
  to_string (slug (field frm "source_doctype")) = Ok href →
  to_string (field frm "source_docname") = Ok docname →
  to_string (field frm "source_doctype") = Ok doctype →
  ConnectMessageLog.refresh __ slug frm =
    ([ set_indicator (__ (JStr "Failed") None) (JStr "red");
       add_custom_button (__ (JStr "Retry Production") None)
         (retry_click __ frm) None;
       add_comment
         (__ (JStr "Source: {0}")
             (Some [JStr (source_link_markup href doctype docname)]))
         "blue" true ],
     Ok tt).
Proof.
  intros Hs Hd H1 H2 H3 Hhref Hname Htype.
  unfold ConnectMessageLog.refresh.
  rewrite (set_status_indicator_at __ frm (JStr "Failed") "Failed" Hs eq_refl).
  rewrite (add_retry_button_offered __ frm Hs Hd H1 H2 H3).
  unfold _add_source_link. rewrite H1, H2. cbn [andb].
  rewrite Hhref, eval_ok_bind, Hname, eval_ok_bind, Htype, eval_ok_bind.
  assert (Hred : js_or (obj_get status_colors "Failed") (JStr "grey") = JStr "red")
    by (vm_compute; reflexivity).
  rewrite Hred. reflexivity.
Qed.

(** X14. An entry that names no source document (its doctype or its name
    is missing) gets nothing from a refresh but its status indicator:
    neither the Retry Production button nor a source link. *)
Theorem entry_without_source_only_indicator (frm : Form) :
  truthy (field frm "source_doctype") && truthy (field frm "source_docname")
    = false →
  ∀ a, a ∈ actions (ConnectMessageLog.refresh __ slug frm) →
       ∃ label color, a = set_indicator label color.
Proof.
  intros Hsource a Hin. unfold ConnectMessageLog.refresh in Hin.
  assert (Hretry : _add_retry_button __ frm = ([], Ok tt)).
  { apply add_retry_button_withheld. intros (_ & _ & H1 & H2 & _).
    rewrite H1, H2 in Hsource. discriminate. }
  assert (Hlink : _add_source_link __ slug frm = ([], Ok tt)).
  { unfold _add_source_link. now rewrite Hsource. }
  rewrite Hretry, Hlink in Hin.
  unfold _set_status_indicator in Hin.
  destruct (to_string (field frm "status")) as [key | |];
    [| inversion Hin ..].
  rewrite eval_ok_bind in Hin. apply list_elem_of_singleton in Hin.
  eauto.
Qed.

End Counts.

(* ===================================================================== *)
(** * The further properties at concrete documents and replies *)
(* ===================================================================== *)

(** A null row between two well-formed ones. *)
Lemma null_row_shows_no_indicator_witness :
  ConnectSettings.stats_callback untranslated
      (object
         [ ("message",
             object
               [ ("ok", JBool true);
                 ("data",
                   object
                     [ ("stats",
                         JArr
                           [ object [ ("direction", JStr "Produced");
                                      ("status", JStr "Sent");
                                      ("count", JNum 5) ];
                             JNull;
                             object [ ("direction", JStr "Produced");
                                      ("status", JStr "Failed");
                                      ("count", JNum 1) ] ]) ]) ]) ])
    = ([], TypeError).
Proof.
  pose (before := [ {| stat_direction := "Produced"; stat_status := "Sent";
                       stat_count := 5 |} ]).
  pose (after := [ stat_entry {| stat_direction := "Produced";
                                 stat_status := "Failed";
                                 stat_count := 1 |} ]).
  pose (data := list_to_map
                  [("stats", JArr (app (stat_entry <$> before) (JNull :: after)))]
                : gmap string JsVal).
  pose (message := list_to_map [("ok", JBool true); ("data", JObj data)]
                   : gmap string JsVal).
  pose (r := list_to_map [("message", JObj message)] : gmap string JsVal).
  apply (null_row_shows_no_indicator untranslated r message data before after).
  - vm_compute. reflexivity.
  - vm_compute. reflexivity.
  - vm_compute. reflexivity.
  - vm_compute. reflexivity.
  - repeat (constructor; [cbn; lia |]). constructor.
  - vm_compute. discriminate.
Defined.

(** Indicators on the dashboard mean an ok reply with rows. *)
Lemma stats_shown_only_for_rows_witness :
  ∃ reply data row rows,
    (list_to_map
       [ ("message",
           object
             [ ("ok", JBool true);
               ("data",
                 object
                   [ ("stats",
                       JArr [ object [ ("direction", JStr "Produced");
                                       ("status", JStr "Sent");
                                       ("count", JNum 5) ] ]) ]) ]) ]
     : gmap string JsVal) !! "message" = Some (JObj reply)
    ∧ truthy (obj_get reply "ok") = true
    ∧ reply !! "data" = Some (JObj data)
    ∧ data !! "stats" = Some (JArr (row :: rows)).
Proof.
  apply (stats_shown_only_for_rows untranslated).
  vm_compute. discriminate.
Defined.

(** Five sent, two dead-lettered on the way in, one failed on the way out. *)
Lemma direction_totals_partition_the_counts_witness :
  ∃ produced consumed failed,
    ConnectSettings.stats_forEach (JNum 0, JNum 0, JNum 0)
        (stat_entry <$>
           [ {| stat_direction := "Produced"; stat_status := "Sent";
                stat_count := 5 |};
             {| stat_direction := "Consumed"; stat_status := "Dead Letter";
                stat_count := 2 |};
             {| stat_direction := "Produced"; stat_status := "Failed";
                stat_count := 1 |} ])
      = Ok (JNum produced, JNum consumed, JNum failed)
    ∧ (produced + consumed = 8)%Z ∧ (failed = 3)%Z.
Proof.
  destruct (direction_totals_partition_the_counts
              [ {| stat_direction := "Produced"; stat_status := "Sent";
                   stat_count := 5 |};
                {| stat_direction := "Consumed"; stat_status := "Dead Letter";
                   stat_count := 2 |};
                {| stat_direction := "Produced"; stat_status := "Failed";
                   stat_count := 1 |} ])
    as (produced & consumed & failed & Hloop & _ & _ & _ & _ & Hall).
  - repeat (constructor; [cbn; lia |]). constructor.
  - vm_compute. discriminate.
  - exists produced, consumed, failed. split; [exact Hloop |].
    destruct Hall as [Hsum _];
      [repeat (constructor; [reflexivity |]); constructor |].
    split; [exact Hsum |].
    assert (Hrun : ConnectSettings.stats_forEach (JNum 0, JNum 0, JNum 0)
                     (stat_entry <$>
                        [ {| stat_direction := "Produced";
                             stat_status := "Sent"; stat_count := 5 |};
                          {| stat_direction := "Consumed";
                             stat_status := "Dead Letter"; stat_count := 2 |};
                          {| stat_direction := "Produced";
                             stat_status := "Failed"; stat_count := 1 |} ])
                   = Ok (JNum 6, JNum 2, JNum 3)) by (vm_compute; reflexivity).
    rewrite Hrun in Hloop. now injection Hloop as _ _ <-.
Defined.




(** A rule with three messages. *)
Lemma count_indicators_skip_zero_witness :
  ConnectEmissionRule.total_messages_callback untranslated
      (object [("message", JNum 3)])
    = ([add_indicator (JStr "Total Messages: 3") "blue"], Ok tt)
  ∧ ConnectEmissionRule.failed_messages_callback untranslated
        (object [("message", JNum 3)])
      = ([add_indicator (JStr "Failed: 3") "red"], Ok tt).
Proof.
  apply (count_indicators_skip_zero untranslated
           (list_to_map [("message", JNum 3)]) 3).
  - vm_compute. reflexivity.
  - lia.
Defined.

(** A status the maps do not know and no object inherits. *)
Lemma indicators_fall_back_to_grey_witness :
  ConnectMessageLog._set_status_indicator untranslated
      (form_of [("status", JStr "Archived")])
    = ([set_indicator (JStr "Archived") (JStr "grey")], Ok tt)
  ∧ ConnectMessageLogList.get_indicator untranslated
        (list_to_map [("status", JStr "Archived")])
      = Ok (JArr [JStr "Archived"; JStr "grey"; JStr ""]).
Proof.
  destruct (indicators_fall_back_to_grey untranslated "Archived"
              (form_of [("status", JStr "Archived")])
              (list_to_map [("status", JStr "Archived")]))
    as [Hform Hlist].
  - apply (bool_decide_eq_false_1 ("Archived" ∈ status_palette.*1)).
    vm_compute. reflexivity.
  - apply (bool_decide_eq_false_1 ("Archived" ∈ object_prototype)).
    vm_compute. reflexivity.
  - split; [apply Hform | apply Hlist]; vm_compute; reflexivity.
Defined.

(** A failed entry of the producer path, on a site whose slugs are the
    names themselves. *)
Lemma retriable_entry_refresh_witness :
  ConnectMessageLog.refresh untranslated (λ v, v)
      (form_of [ ("status", JStr "Failed");
                 ("direction", JStr "Produced");
                 ("source_doctype", JStr "Loan");
                 ("source_docname", JStr "LN-0001");
                 ("rule_name", JStr "loan.create") ])
    = ([ set_indicator (untranslated (JStr "Failed") None) (JStr "red");
         add_custom_button (untranslated (JStr "Retry Production") None)
           (ConnectMessageLog.retry_click untranslated
              (form_of [ ("status", JStr "Failed");
                         ("direction", JStr "Produced");
                         ("source_doctype", JStr "Loan");
                         ("source_docname", JStr "LN-0001");
                         ("rule_name", JStr "loan.create") ])) None;
         add_comment
           (untranslated (JStr "Source: {0}")
              (Some [JStr (source_link_markup "Loan" "Loan" "LN-0001")]))
           "blue" true ], Ok tt).
Proof.
  apply (retriable_entry_refresh untranslated (λ v, v) _ "Loan" "LN-0001" "Loan");
    vm_compute; reflexivity.
Defined.

(** A consumed entry that names no source document. *)
Lemma entry_without_source_only_indicator_witness :
  Forall (λ a, ∃ label color, a = set_indicator label color)
    (actions
       (ConnectMessageLog.refresh untranslated (λ v, v)
          (form_of [ ("status", JStr "Processed");
                     ("direction", JStr "Consumed") ]))).
Proof.
  apply Forall_forall.
  apply (entry_without_source_only_indicator untranslated (λ v, v)).
  vm_compute. reflexivity.
Defined.
